(** * Payment requests: lifecycle state machine, scheduling signal and worker

    A shallow embedding of [request/models.py], [request/signals.py] and
    [request/tasks.py].  The table of payment requests is a finite map from
    primary keys to rows; the ORM calls, the transaction blocks, the
    post-commit hooks, the task queue and the logger are threaded through an
    explicit world in a state-and-exception monad. *)

From Stdlib Require Import ZArith String List.
From stdpp Require Import base decidable option list gmap strings.

Open Scope Z_scope.
Open Scope string_scope.

(** ** Data model (models.py) *)

(** [PaymentRequest.Status] *)
Inductive Status : Type :=
  | PENDING
  | PROCESSING
  | APPROVED
  | REJECTED
  | COMPLETED
  | CANCELLED.

#[global] Instance Status_eq_dec : EqDecision Status.
Proof. solve_decision. Defined.

(** [PaymentRequest.Currency] *)
Inductive Currency : Type := RUB | USD | EUR | GBP.

#[global] Instance Currency_eq_dec : EqDecision Currency.
Proof. solve_decision. Defined.

(** Instants of time (the values of [timezone.now()]). *)
Definition Time : Type := Z.

(** One [PaymentRequest]: an in-memory instance, or a row of the table.
    [pk] is the [id] column; [amount] is a decimal with two places, kept as
    a number of hundredths; [processed_at] is the only nullable column. *)
Record PaymentRequest : Type := mkPaymentRequest {
  pk : Z;
  amount : Z;
  currency : Currency;
  recipient_name : string;
  recipient_account : string;
  recipient_bank : string;
  recipient_bank_code : string;
  status : Status;
  description : string;
  created_at : Time;
  updated_at : Time;
  processed_at : option Time;
  rejection_reason : string
}.

(** Attribute assignments [self.<field> = v]. *)
Definition set_status (v : Status) (r : PaymentRequest) : PaymentRequest :=
  mkPaymentRequest (pk r) (amount r) (currency r) (recipient_name r)
    (recipient_account r) (recipient_bank r) (recipient_bank_code r)
    v (description r) (created_at r) (updated_at r) (processed_at r)
    (rejection_reason r).

Definition set_updated_at (v : Time) (r : PaymentRequest) : PaymentRequest :=
  mkPaymentRequest (pk r) (amount r) (currency r) (recipient_name r)
    (recipient_account r) (recipient_bank r) (recipient_bank_code r)
    (status r) (description r) (created_at r) v (processed_at r)
    (rejection_reason r).

Definition set_processed_at (v : option Time) (r : PaymentRequest)
  : PaymentRequest :=
  mkPaymentRequest (pk r) (amount r) (currency r) (recipient_name r)
    (recipient_account r) (recipient_bank r) (recipient_bank_code r)
    (status r) (description r) (created_at r) (updated_at r) v
    (rejection_reason r).

Definition set_rejection_reason (v : string) (r : PaymentRequest)
  : PaymentRequest :=
  mkPaymentRequest (pk r) (amount r) (currency r) (recipient_name r)
    (recipient_account r) (recipient_bank r) (recipient_bank_code r)
    (status r) (description r) (created_at r) (updated_at r) (processed_at r)
    v.

(** The columns that the code names in [update_fields]. *)
Inductive Field : Type :=
  | F_status
  | F_updated_at
  | F_processed_at
  | F_rejection_reason.

#[global] Instance Field_eq_dec : EqDecision Field.
Proof. solve_decision. Defined.

(** [UPDATE ... SET f = <value of f in src>] on the row [dst]. *)
Definition write_field (src : PaymentRequest) (dst : PaymentRequest) (f : Field)
  : PaymentRequest :=
  match f with
  | F_status => set_status (status src) dst
  | F_updated_at => set_updated_at (updated_at src) dst
  | F_processed_at => set_processed_at (processed_at src) dst
  | F_rejection_reason => set_rejection_reason (rejection_reason src) dst
  end.

Definition write_fields (fields : list Field) (src dst : PaymentRequest)
  : PaymentRequest :=
  foldl (write_field src) dst fields.

(** ** The world: store, transaction, queue, log, clock *)

(** A callback given to [transaction.on_commit]; the only one in the code is
    [lambda: process_payment_request.apply_async(args=[id], countdown=c)]. *)
Inductive Hook : Type :=
  | ApplyAsync (request_id : Z) (countdown : Z).

(** A worker invocation handed to the task queue. *)
Record Delivery : Type := mkDelivery {
  d_request_id : Z;
  d_countdown : Z
}.

Inductive Level : Type := INFO | WARNING | ERROR.

(** The log messages of signals.py and tasks.py, by their content. *)
Inductive Message : Type :=
  | MsgScheduled (request_id : Z)
  | MsgStarting (request_id : Z)
  | MsgNotPending (request_id : Z) (st : Status)
  | MsgNowProcessing (request_id : Z)
  | MsgNotFound (request_id : Z)
  | MsgApproved (request_id : Z)
  | MsgRejected (request_id : Z) (reason : string).

Record World : Type := mkWorld {
  db : gmap Z PaymentRequest;   (* the table, by primary key *)
  next_pk : Z;                  (* the id sequence *)
  depth : nat;                  (* nesting of open atomic blocks *)
  hooks : list Hook;            (* on_commit callbacks not yet run *)
  queue : list Delivery;        (* apply_async calls, oldest first *)
  log : list (Level * Message); (* log records, oldest first *)
  clock : nat -> Time;          (* the successive readings of the clock *)
  ticks : nat                   (* how many readings were taken *)
}.

Definition with_db (d : gmap Z PaymentRequest) (w : World) : World :=
  mkWorld d (next_pk w) (depth w) (hooks w) (queue w) (log w) (clock w)
    (ticks w).

Definition with_next_pk (n : Z) (w : World) : World :=
  mkWorld (db w) n (depth w) (hooks w) (queue w) (log w) (clock w) (ticks w).

Definition with_depth (n : nat) (w : World) : World :=
  mkWorld (db w) (next_pk w) n (hooks w) (queue w) (log w) (clock w) (ticks w).

Definition with_hooks (h : list Hook) (w : World) : World :=
  mkWorld (db w) (next_pk w) (depth w) h (queue w) (log w) (clock w) (ticks w).

Definition with_queue (q : list Delivery) (w : World) : World :=
  mkWorld (db w) (next_pk w) (depth w) (hooks w) q (log w) (clock w) (ticks w).

Definition with_log (l : list (Level * Message)) (w : World) : World :=
  mkWorld (db w) (next_pk w) (depth w) (hooks w) (queue w) l (clock w)
    (ticks w).

Definition with_ticks (n : nat) (w : World) : World :=
  mkWorld (db w) (next_pk w) (depth w) (hooks w) (queue w) (log w) (clock w) n.

(** ** Exceptions and the monad *)

(** [Retry] is what [self.retry()] raises in a bound Celery task. *)
Inductive Exn : Type :=
  | DoesNotExist
  | DatabaseError
  | IntegrityError
  | Retry.

#[global] Instance Exn_eq_dec : EqDecision Exn.
Proof. solve_decision. Defined.

Inductive Result (A : Type) : Type :=
  | Ok (a : A)
  | Raise (e : Exn).
Arguments Ok {A} a.
Arguments Raise {A} e.

Definition M (A : Type) : Type := World -> Result A * World.

#[global] Instance M_ret : MRet M := fun A a w => (Ok a, w).

#[global] Instance M_bind : MBind M := fun A B k m w =>
  match m w with
  | (Ok a, w') => k a w'
  | (Raise e, w') => (Raise e, w')
  end.

Definition raise {A : Type} (e : Exn) : M A := fun w => (Raise e, w).

(** [try: body / except e: handler]. *)
Definition try_except {A : Type} (body : M A) (e : Exn) (handler : M A) : M A :=
  fun w =>
    match body w with
    | (Ok a, w') => (Ok a, w')
    | (Raise e', w') =>
        if decide (e' = e) then handler w' else (Raise e', w')
    end.

(** ** Logger, clock, transactions (the Django services the code calls) *)

Definition logger (lvl : Level) (msg : Message) : M unit :=
  fun w => (Ok tt, with_log (log w ++ [(lvl, msg)]) w).

(** [timezone.now()]: the next reading of the clock. *)
Definition timezone_now : M Time :=
  fun w => (Ok (clock w (ticks w)), with_ticks (S (ticks w)) w).

(** Running a post-commit callback: [apply_async] puts one invocation on the
    queue. *)
Definition run_hook (w : World) (h : Hook) : World :=
  match h with
  | ApplyAsync request_id countdown =>
      with_queue (queue w ++ [mkDelivery request_id countdown]) w
  end.

(** [transaction.on_commit(func)]: inside an atomic block the callback is
    kept for the commit; in autocommit mode it runs at once. *)
Definition on_commit (h : Hook) : M unit :=
  fun w =>
    match depth w with
    | O => (Ok tt, run_hook w h)
    | S _ => (Ok tt, with_hooks (hooks w ++ [h]) w)
    end.

(** Leaving an atomic block normally: the outermost block commits and runs
    the callbacks in the order they were registered. *)
Definition commit (w : World) : World :=
  match depth w with
  | O => w
  | S O => foldl run_hook (with_hooks [] (with_depth O w)) (hooks w)
  | S n => with_depth n w
  end.

(** Leaving an atomic block by an exception: the rows and the pending
    callbacks go back to what they were on entry [snap]; the log, the queue,
    the id sequence and the clock stay as they are. *)
Definition rollback (snap w : World) : World :=
  with_db (db snap) (with_hooks (hooks snap) (with_depth (depth snap) w)).

(** [with transaction.atomic(): body] *)
Definition atomic {A : Type} (body : M A) : M A :=
  fun w =>
    match body (with_depth (S (depth w)) w) with
    | (Ok a, w') => (Ok a, commit w')
    | (Raise e, w') => (Raise e, rollback w w')
    end.

(** [PaymentRequest.objects.select_for_update().get(id=request_id)].  The
    row lock serialises the atomic blocks that touch the same row; a block
    of this model runs without interleaving, which is what the lock gives. *)
Definition select_for_update_get (request_id : Z) : M PaymentRequest :=
  fun w =>
    match db w !! request_id with
    | Some row => (Ok row, w)
    | None => (Raise DoesNotExist, w)
    end.

(** ** signals.py *)

(** [trigger_payment_processing(sender, instance, created)], the
    receiver of [post_save] for [PaymentRequest]. *)
Definition trigger_payment_processing (instance : PaymentRequest)
    (created : bool) : M unit :=
  if created && bool_decide (status instance = PENDING) then
    on_commit (ApplyAsync (pk instance) 2) ;;
    logger INFO (MsgScheduled (pk instance))
  else mret tt.

(** ** Saving (Model.save as the code uses it) *)

(** [self.save(update_fields=fields)]: [updated_at] is an [auto_now] column,
    so when it is listed it is stamped with the current time on the instance
    first; then only the listed columns of the row are written; Django
    raises [DatabaseError] when the UPDATE matches no row; at the end
    [post_save] is sent with [created=False].  The instance is returned as
    the call leaves it. *)
Definition save (update_fields : list Field) (self : PaymentRequest)
  : M PaymentRequest :=
  self ← (if bool_decide (F_updated_at ∈ update_fields)
          then t ← timezone_now; mret (set_updated_at t self)
          else mret self);
  row ← (fun w => match db w !! pk self with
                  | Some row => (Ok row, w)
                  | None => (Raise DatabaseError, w)
                  end);
  (fun w => (Ok tt, with_db (<[pk self := write_fields update_fields self row]>
                               (db w)) w)) ;;
  trigger_payment_processing self false ;;
  mret self.

(** The keyword arguments of [PaymentRequest.objects.create(...)]; a caller
    that omits [status] gets the column default [PENDING]. *)
Record NewRequest : Type := mkNewRequest {
  n_amount : Z;
  n_currency : Currency;
  n_recipient_name : string;
  n_recipient_account : string;
  n_recipient_bank : string;
  n_recipient_bank_code : string;
  n_status : Status;
  n_description : string
}.

(** [PaymentRequest.objects.create] with keyword arguments [data]: a save
    that inserts.  The id comes from the sequence, [created_at]
    ([auto_now_add]) and [updated_at] ([auto_now]) are stamped,
    [processed_at] is null and [rejection_reason] is the empty string;
    [post_save] is sent with [created=True]. *)
Definition objects_create (data : NewRequest) : M PaymentRequest :=
  t_created ← timezone_now;
  t_updated ← timezone_now;
  self ← (fun w =>
            let self :=
              mkPaymentRequest (next_pk w) (n_amount data) (n_currency data)
                (n_recipient_name data) (n_recipient_account data)
                (n_recipient_bank data) (n_recipient_bank_code data)
                (n_status data) (n_description data) t_created t_updated
                None EmptyString in
            match db w !! next_pk w with
            | Some _ => (Raise IntegrityError, w)
            | None =>
                (Ok self,
                 with_next_pk (next_pk w + 1)
                   (with_db (<[next_pk w := self]> (db w)) w))
            end);
  trigger_payment_processing self true ;;
  mret self.

(** ** The transition operations (models.py) *)

(** [can_be_cancelled] *)
Definition can_be_cancelled (self : PaymentRequest) : bool :=
  bool_decide (status self ∈ [PENDING; PROCESSING]).

(** [approve(self)] *)
Definition approve (self : PaymentRequest) : M PaymentRequest :=
  if bool_decide (status self = PENDING) then
    let self := set_status APPROVED self in
    save [F_status; F_updated_at] self
  else mret self.

(** [reject(self, reason)]; the parameter defaults to the empty string,
    which a caller that omits the reason passes. *)
Definition reject (reason : string) (self : PaymentRequest)
  : M PaymentRequest :=
  if bool_decide (status self ∈ [PENDING; PROCESSING]) then
    let self := set_status REJECTED self in
    let self := set_rejection_reason reason self in
    save [F_status; F_rejection_reason; F_updated_at] self
  else mret self.

(** [complete(self)] *)
Definition complete (self : PaymentRequest) : M PaymentRequest :=
  if bool_decide (status self = APPROVED) then
    let self := set_status COMPLETED self in
    t ← timezone_now;
    let self := set_processed_at (Some t) self in
    save [F_status; F_processed_at; F_updated_at] self
  else mret self.

(** [cancel(self)] *)
Definition cancel (self : PaymentRequest) : M PaymentRequest :=
  if can_be_cancelled self then
    let self := set_status CANCELLED self in
    save [F_status; F_updated_at] self
  else mret self.

(** ** The worker (tasks.py) *)

Inductive Outcome : Type := Approved | Rejected.

(** The strings the task returns, by their content:
    ["Skipped: Status is <status>"], ["Failed: Request not found"] and
    ["Processed in <t>s: <result>"]. *)
Inductive TaskReturn : Type :=
  | Skipped (st : Status)
  | FailedNotFound
  | Processed (processing_time : Z) (result : Outcome).

(** What the run does not decide itself: the two random draws (the time
    slept, in milliseconds, and the coin [random.random() < 0.9]) and what
    other clients commit to the store while the run sleeps outside any
    lock. *)
Record Simulation : Type := mkSimulation {
  processing_time : Z;
  is_success : bool;
  meanwhile : World -> World
}.

(** [time.sleep(processing_time)] *)
Definition time_sleep (sim : Simulation) : M unit :=
  fun w => (Ok tt, meanwhile sim w).

(** The first [try: with transaction.atomic(): ... except DoesNotExist:]
    block; [Some v] is an early [return v]. *)
Definition lock_phase (request_id : Z) : M (option TaskReturn) :=
  try_except
    (atomic
       (payment_request ← select_for_update_get request_id;
        if bool_decide (status payment_request ≠ PENDING) then
          logger WARNING (MsgNotPending request_id (status payment_request)) ;;
          mret (Some (Skipped (status payment_request)))
        else
          let payment_request := set_status PROCESSING payment_request in
          save [F_status; F_updated_at] payment_request ;;
          logger INFO (MsgNowProcessing request_id) ;;
          mret None))
    DoesNotExist
    (logger ERROR (MsgNotFound request_id) ;;
     mret (Some FailedNotFound)).

(** The second [with transaction.atomic():] block. *)
Definition terminal_phase (success : bool) (request_id : Z) : M Outcome :=
  atomic
    (payment_request ← select_for_update_get request_id;
     if success then
       approve payment_request ;;
       logger INFO (MsgApproved request_id) ;;
       mret Approved
     else
       let reason := "Rejected by external system (simulated failure)" in
       reject reason payment_request ;;
       logger WARNING (MsgRejected request_id reason) ;;
       mret Rejected).

(** [process_payment_request(self, request_id)] *)
Definition process_payment_request (sim : Simulation) (request_id : Z)
  : M TaskReturn :=
  logger INFO (MsgStarting request_id) ;;
  early ← lock_phase request_id;
  match early with
  | Some v => mret v
  | None =>
      time_sleep sim ;;
      result ← terminal_phase (is_success sim) request_id;
      mret (Processed (processing_time sim) result)
  end.

(** How Celery records a run of a task declared with
    [@shared_task(bind=True, max_retries=3)] and no [autoretry_for]: a
    returned value is a success, [Retry] (raised by [self.retry()] only)
    schedules another attempt, any other exception is a failure. *)
Inductive TaskState : Type := SUCCESS | FAILURE | RETRY.

Definition task_state {A : Type} (r : Result A) : TaskState :=
  match r with
  | Ok _ => SUCCESS
  | Raise Retry => RETRY
  | Raise _ => FAILURE
  end.

(** ** Sequences of transition-operation calls *)

Inductive Op : Type :=
  | OpApprove
  | OpReject (reason : string)
  | OpComplete
  | OpCancel.

Definition apply_op (op : Op) (self : PaymentRequest) : M PaymentRequest :=
  match op with
  | OpApprove => approve self
  | OpReject reason => reject reason self
  | OpComplete => complete self
  | OpCancel => cancel self
  end.

(** The calls of [ops] one after the other on the same instance; the result
    lists the instance before the first call and after each call. *)
Fixpoint run_ops (ops : list Op) (self : PaymentRequest)
  : M (list PaymentRequest) :=
  match ops with
  | [] => mret [self]
  | op :: ops' =>
      self' ← apply_op op self;
      rest ← run_ops ops' self';
      mret (self :: rest)
  end.

(** ** Vocabulary of the specification *)

(** The states an operation is legal from (section 4.1 of the spec). *)
Definition legal_sources (op : Op) : list Status :=
  match op with
  | OpApprove => [PENDING]
  | OpReject _ => [PENDING; PROCESSING]
  | OpComplete => [APPROVED]
  | OpCancel => [PENDING; PROCESSING]
  end.

(** The columns an operation is meant to write. *)
Definition designated (op : Op) : list Field :=
  match op with
  | OpApprove => [F_status; F_updated_at]
  | OpReject _ => [F_status; F_updated_at; F_rejection_reason]
  | OpComplete => [F_status; F_updated_at; F_processed_at]
  | OpCancel => [F_status; F_updated_at]
  end.

(** The transition graph (section 4.1 of the spec):
    [PENDING -> PROCESSING, APPROVED, REJECTED, CANCELLED];
    [PROCESSING -> APPROVED, REJECTED, CANCELLED];
    [APPROVED -> COMPLETED, CANCELLED]. *)
Definition edge (a b : Status) : bool :=
  match a, b with
  | PENDING, (PROCESSING | APPROVED | REJECTED | CANCELLED) => true
  | PROCESSING, (APPROVED | REJECTED | CANCELLED) => true
  | APPROVED, (COMPLETED | CANCELLED) => true
  | _, _ => false
  end.

(** [REJECTED], [COMPLETED] and [CANCELLED] have no outgoing edge. *)
Definition terminal (s : Status) : bool :=
  match s with
  | REJECTED | COMPLETED | CANCELLED => true
  | _ => false
  end.

(** [a] and [b] agree on every column that no operation is meant to write. *)
Definition same_payload (a b : PaymentRequest) : Prop :=
  pk a = pk b /\ amount a = amount b /\ currency a = currency b /\
  recipient_name a = recipient_name b /\
  recipient_account a = recipient_account b /\
  recipient_bank a = recipient_bank b /\
  recipient_bank_code a = recipient_bank_code b /\
  description a = description b /\ created_at a = created_at b.

(** [a] and [b] agree on the column [f]. *)
Definition same_field (f : Field) (a b : PaymentRequest) : Prop :=
  match f with
  | F_status => status a = status b
  | F_updated_at => updated_at a = updated_at b
  | F_processed_at => processed_at a = processed_at b
  | F_rejection_reason => rejection_reason a = rejection_reason b
  end.

(** [a] and [b] differ at most on the columns [fields]. *)
Definition same_except (fields : list Field) (a b : PaymentRequest) : Prop :=
  same_payload a b /\ forall f, f ∉ fields -> same_field f a b.

(** ** Auxiliary definitions for the proofs *)

(** What an operation that passes its guard makes of a request, instance or
    row alike; [t1] and [t2] are the next two readings of the clock. *)
Definition fired (op : Op) (t1 t2 : Time) (r : PaymentRequest)
  : PaymentRequest :=
  match op with
  | OpApprove => set_updated_at t1 (set_status APPROVED r)
  | OpReject reason =>
      set_updated_at t1 (set_rejection_reason reason (set_status REJECTED r))
  | OpComplete =>
      set_updated_at t2 (set_processed_at (Some t1) (set_status COMPLETED r))
  | OpCancel => set_updated_at t1 (set_status CANCELLED r)
  end.

(** How often an operation that passes its guard reads the clock. *)
Definition reads (op : Op) : nat :=
  match op with
  | OpComplete => 2%nat
  | _ => 1%nat
  end.

(** A request that was never completed. *)
Definition open_request (r : PaymentRequest) : Prop :=
  processed_at r = None /\ status r <> COMPLETED.

(** A history that is open up to some call and, from the call that
    completed the request on, repeats one completed request. *)
Definition settled (tr : list PaymentRequest) : Prop :=
  exists pre c n,
    tr = (pre ++ replicate n c)%list /\ Forall open_request pre /\
    status c = COMPLETED /\ is_Some (processed_at c).

(** ** Concrete stores for the examples *)

(** The clock reads 10, 11, 12, ...; the table is empty. *)
Definition world0 : World :=
  mkWorld ∅ 1 O [] [] [] (fun n => 10 + Z.of_nat n) O.

Definition data0 : NewRequest :=
  mkNewRequest 100000 RUB "Test User" "1234567890" EmptyString
    EmptyString PENDING "Test payment".

(** Request 1 as [objects_create data0] leaves it in [world0]. *)
Definition request0 : PaymentRequest :=
  mkPaymentRequest 1 100000 RUB "Test User" "1234567890" EmptyString
    EmptyString PENDING "Test payment" 10 11 None EmptyString.

Definition world1 : World :=
  mkWorld {[ 1 := request0 ]} 2 O [] [mkDelivery 1 2]
    [(INFO, MsgScheduled 1)] (fun n => 10 + Z.of_nat n) 2%nat.

(** Request 1 after the worker moved it to [PROCESSING] at instant 12. *)
Definition request_processing : PaymentRequest :=
  set_updated_at 12 (set_status PROCESSING request0).

Definition world_processing : World :=
  with_ticks 3 (with_db {[ 1 := request_processing ]} world1).

(** Request 1 rejected and then frozen. *)
Definition request_rejected : PaymentRequest :=
  set_updated_at 12
    (set_rejection_reason "duplicate" (set_status REJECTED request0)).

(** A run whose gateway call succeeds after 3 seconds while nobody else
    touches the store. *)
Definition sim_quiet_success : Simulation :=
  mkSimulation 3000 true (fun w => w).

(** The same with a gateway call that fails. *)
Definition sim_quiet_failure : Simulation :=
  mkSimulation 3000 false (fun w => w).

(** A run during whose sleep another client deletes row 1. *)
Definition sim_row_deleted : Simulation :=
  mkSimulation 3000 true (fun w => with_db (delete 1 (db w)) w).

(** ** The API layer (api/v1/views.py and api/v1/serializers.py) *)

(** The status codes the views answer with. *)
Inductive HttpStatus : Type :=
  | HTTP_200_OK
  | HTTP_201_CREATED
  | HTTP_204_NO_CONTENT
  | HTTP_400_BAD_REQUEST
  | HTTP_404_NOT_FOUND
  | HTTP_405_METHOD_NOT_ALLOWED.

(** The ["detail"] texts of the views, by their content. *)
Inductive Detail : Type :=
  | UsePatch
  | CannotDelete (st : Status)
  | CannotApprove (st : Status)
  | CannotReject (st : Status)
  | CannotComplete (st : Status)
  | CannotCancel (st : Status)
  | NotFoundDetail.

(** The messages of the serializers' [ValidationError]s, by their content. *)
Inductive Invalid : Type :=
  | AmountNotPositive
  | AccountEmpty
  | AccountNotDigits
  | TransitionRefused (current value : Status)
  | StatusIsFinal
  | ReasonRequired.

Inductive Body : Type :=
  | BodyRequest (instance : PaymentRequest)
  | BodyDetail (detail : Detail)
  | BodyErrors (e : Invalid)
  | BodyEmpty.

Record Response : Type := mkResponse {
  status_code : HttpStatus;
  data : Body
}.

(** The exceptions a view leaves to the framework's exception handler. *)
Inductive APIException : Type :=
  | Http404
  | ValidationError (e : Invalid).

(** [rest_framework.views.exception_handler] *)
Definition exception_handler (e : APIException) : Response :=
  match e with
  | Http404 => mkResponse HTTP_404_NOT_FOUND (BodyDetail NotFoundDetail)
  | ValidationError e => mkResponse HTTP_400_BAD_REQUEST (BodyErrors e)
  end.

(** A view: it returns a response or raises an API exception. *)
Definition View : Type := M (APIException + Response).

Definition respond (code : HttpStatus) (body : Body) : View :=
  mret (inr (mkResponse code body)).

(** Sequencing inside a view: an API exception of the first step ends the
    view. *)
Definition view_bind {A : Type} (m : M (APIException + A))
    (k : A -> View) : View :=
  r ← m;
  match r with
  | inl e => mret (inl e)
  | inr a => k a
  end.

(** How a request reaches a view.  [ATOMIC_REQUESTS] wraps the view in
    [transaction.atomic]; a returned response commits; an API exception is
    turned into its response by the exception handler, which also marks the
    transaction for rollback; any other exception rolls back and leaves. *)
Definition dispatch (view : View) : M Response :=
  fun w =>
    match view (with_depth (S (depth w)) w) with
    | (Ok (inr response), w') => (Ok response, commit w')
    | (Ok (inl e), w') => (Ok (exception_handler e), rollback w w')
    | (Raise e, w') => (Raise e, rollback w w')
    end.

(** [self.get_object()] of a detail route called without query parameters:
    the row with that key, or [Http404]. *)
Definition get_object (key : Z) : M (APIException + PaymentRequest) :=
  fun w =>
    match db w !! key with
    | Some instance => (Ok (inr instance), w)
    | None => (Ok (inl Http404), w)
    end.

(** [instance.delete()] *)
Definition delete_instance (instance : PaymentRequest) : M unit :=
  fun w => (Ok tt, with_db (delete (pk instance) (db w)) w).

(** [PaymentRequestViewSet.update]: PUT is refused. *)
Definition view_update (key : Z) : View :=
  respond HTTP_405_METHOD_NOT_ALLOWED (BodyDetail UsePatch).

(** [PaymentRequestViewSet.destroy] *)
Definition view_destroy (key : Z) : View :=
  view_bind (get_object key) (fun instance =>
    if bool_decide (status instance ∈ [COMPLETED; PROCESSING]) then
      respond HTTP_400_BAD_REQUEST (BodyDetail (CannotDelete (status instance)))
    else
      delete_instance instance ;;
      respond HTTP_204_NO_CONTENT BodyEmpty).

(** [PaymentRequestViewSet.approve] *)
Definition view_approve (key : Z) : View :=
  view_bind (get_object key) (fun instance =>
    if bool_decide (status instance ≠ PENDING) then
      respond HTTP_400_BAD_REQUEST
        (BodyDetail (CannotApprove (status instance)))
    else
      instance ← approve instance;
      respond HTTP_200_OK (BodyRequest instance)).

(** [PaymentRequestViewSet.reject]; [reason] is [request.data.get("reason")],
    absent or a string. *)
Definition view_reject (reason : option string) (key : Z) : View :=
  view_bind (get_object key) (fun instance =>
    let reason := default EmptyString reason in
    if bool_decide (status instance ∉ [PENDING; PROCESSING]) then
      respond HTTP_400_BAD_REQUEST (BodyDetail (CannotReject (status instance)))
    else
      instance ← reject reason instance;
      respond HTTP_200_OK (BodyRequest instance)).

(** [PaymentRequestViewSet.complete] *)
Definition view_complete (key : Z) : View :=
  view_bind (get_object key) (fun instance =>
    if bool_decide (status instance ≠ APPROVED) then
      respond HTTP_400_BAD_REQUEST
        (BodyDetail (CannotComplete (status instance)))
    else
      instance ← complete instance;
      respond HTTP_200_OK (BodyRequest instance)).

(** [PaymentRequestViewSet.cancel] *)
Definition view_cancel (key : Z) : View :=
  view_bind (get_object key) (fun instance =>
    if negb (can_be_cancelled instance) then
      respond HTTP_400_BAD_REQUEST (BodyDetail (CannotCancel (status instance)))
    else
      instance ← cancel instance;
      respond HTTP_200_OK (BodyRequest instance)).

(** The four status actions of the view set. *)
Inductive Action : Type :=
  | ActApprove
  | ActReject (reason : option string)
  | ActComplete
  | ActCancel.

Definition view_action (a : Action) (key : Z) : View :=
  match a with
  | ActApprove => view_approve key
  | ActReject reason => view_reject reason key
  | ActComplete => view_complete key
  | ActCancel => view_cancel key
  end.

(** The model operation an action calls. *)
Definition action_op (a : Action) : Op :=
  match a with
  | ActApprove => OpApprove
  | ActReject reason => OpReject (default EmptyString reason)
  | ActComplete => OpComplete
  | ActCancel => OpCancel
  end.

(** The status an operation that passes its guard sets. *)
Definition target (op : Op) : Status :=
  match op with
  | OpApprove => APPROVED
  | OpReject _ => REJECTED
  | OpComplete => COMPLETED
  | OpCancel => CANCELLED
  end.

(** [a] and [b] agree on the columns that nothing in the API changes after
    creation. *)
Definition same_fixed (a b : PaymentRequest) : Prop :=
  pk a = pk b /\ amount a = amount b /\ currency a = currency b /\
  recipient_name a = recipient_name b /\
  recipient_account a = recipient_account b /\
  recipient_bank a = recipient_bank b /\
  recipient_bank_code a = recipient_bank_code b /\
  created_at a = created_at b.


(** *** Serializers *)

Definition set_created_at (v : Time) (r : PaymentRequest) : PaymentRequest :=
  mkPaymentRequest (pk r) (amount r) (currency r) (recipient_name r)
    (recipient_account r) (recipient_bank r) (recipient_bank_code r)
    (status r) (description r) v (updated_at r) (processed_at r)
    (rejection_reason r).

Definition set_description (v : string) (r : PaymentRequest) : PaymentRequest :=
  mkPaymentRequest (pk r) (amount r) (currency r) (recipient_name r)
    (recipient_account r) (recipient_bank r) (recipient_bank_code r)
    (status r) v (created_at r) (updated_at r) (processed_at r)
    (rejection_reason r).

(** [instance.save()] without arguments, on an instance that has a key.
    Django first tries an UPDATE of every column but the key, stamping the
    [auto_now] column [updated_at]; when no row has the key it INSERTs the
    instance instead, stamping [created_at] and [updated_at] as for a new
    row.  [post_save] is sent with [created] telling which it was. *)
Definition save_all (self : PaymentRequest) : M PaymentRequest :=
  t ← timezone_now;
  let self := set_updated_at t self in
  found ← (fun w => (Ok (bool_decide (is_Some (db w !! pk self))), w));
  if found : bool then
    (fun w => (Ok tt, with_db (<[pk self := self]> (db w)) w)) ;;
    trigger_payment_processing self false ;;
    mret self
  else
    t_created ← timezone_now;
    t_updated ← timezone_now;
    let self := set_updated_at t_updated (set_created_at t_created self) in
    (fun w => (Ok tt, with_db (<[pk self := self]> (db w)) w)) ;;
    trigger_payment_processing self true ;;
    mret self.

(** The validated body of a PATCH: the fields of
    [PaymentRequestUpdateSerializer], each present or absent. *)
Record PatchData : Type := mkPatchData {
  p_status : option Status;
  p_rejection_reason : option string;
  p_description : option string
}.

(** The dictionary [allowed_transitions] of [validate_status]. *)
Definition allowed_transitions (current_status : Status)
  : option (list Status) :=
  match current_status with
  | PENDING => Some [PROCESSING; APPROVED; REJECTED; CANCELLED]
  | PROCESSING => Some [APPROVED; REJECTED; CANCELLED]
  | APPROVED => Some [COMPLETED; CANCELLED]
  | _ => None
  end.

(** [PaymentRequestUpdateSerializer.validate_status], for a serializer that
    has an instance. *)
Definition validate_status (instance : PaymentRequest) (value : Status)
  : Invalid + Status :=
  let current_status := status instance in
  match allowed_transitions current_status with
  | Some allowed =>
      if bool_decide (value ∉ allowed)
      then inl (TransitionRefused current_status value)
      else inr value
  | None =>
      if bool_decide (current_status ∈ [COMPLETED; REJECTED; CANCELLED])
      then inl StatusIsFinal
      else inr value
  end.

(** Python's [not s] for a text that may be absent. *)
Definition falsy (s : option string) : bool :=
  match s with
  | None => true
  | Some s => bool_decide (s = EmptyString)
  end.

(** [PaymentRequestUpdateSerializer.validate] *)
Definition validate (instance : PaymentRequest) (attrs : PatchData)
  : Invalid + PatchData :=
  if bool_decide (p_status attrs = Some REJECTED) then
    if falsy (p_rejection_reason attrs)
       && falsy (Some (rejection_reason instance))
    then inl ReasonRequired
    else inr attrs
  else inr attrs.

(** [serializer.is_valid(raise_exception=True)] for the update serializer:
    the field check [validate_status] when a status is given, then
    [validate]. *)
Definition is_valid (instance : PaymentRequest) (data : PatchData)
  : APIException + PatchData :=
  let checked :=
    match p_status data with
    | Some value =>
        match validate_status instance value with
        | inl e => inl e
        | inr _ => validate instance data
        end
    | None => validate instance data
    end in
  match checked with
  | inl e => inl (ValidationError e)
  | inr validated_data => inr validated_data
  end.

(** [ModelSerializer.update]: every validated field is assigned. *)
Definition assign_validated (validated_data : PatchData)
    (processed : option Time) (instance : PaymentRequest) : PaymentRequest :=
  let instance :=
    match p_status validated_data with
    | Some v => set_status v instance
    | None => instance
    end in
  let instance :=
    match p_rejection_reason validated_data with
    | Some v => set_rejection_reason v instance
    | None => instance
    end in
  let instance :=
    match p_description validated_data with
    | Some v => set_description v instance
    | None => instance
    end in
  match processed with
  | Some t => set_processed_at (Some t) instance
  | None => instance
  end.

(** [PaymentRequestUpdateSerializer.update] *)
Definition serializer_update (instance : PaymentRequest)
    (validated_data : PatchData) : M PaymentRequest :=
  let new_status := p_status validated_data in
  processed ← (if bool_decide (new_status = Some COMPLETED)
                  && bool_decide (Some (status instance) ≠ new_status)
               then t ← timezone_now; mret (Some t)
               else mret None);
  save_all (assign_validated validated_data processed instance).

(** [PaymentRequestViewSet.partial_update] *)
Definition view_partial_update (data : PatchData) (key : Z) : View :=
  view_bind (get_object key) (fun instance =>
    view_bind (mret (is_valid instance data)) (fun validated_data =>
      instance ← serializer_update instance validated_data;
      respond HTTP_200_OK (BodyRequest instance))).

(** [PaymentRequestCreateSerializer.validate_amount], on hundredths. *)
Definition validate_amount (value : Z) : Invalid + Z :=
  if bool_decide (value <= 0) then inl AmountNotPositive else inr value.

(** Texts as lists of characters of any alphabet, with the two character
    classes that [str.isdigit] and [str.strip] consult. *)
Section Account.
Context {Char : Type} (char_isdigit char_isspace : Char -> bool).

Fixpoint lstrip (s : list Char) : list Char :=
  match s with
  | [] => []
  | c :: s' => if char_isspace c then lstrip s' else s
  end.

(** [s.strip()] *)
Definition strip (s : list Char) : list Char :=
  rev (lstrip (rev (lstrip s))).

(** [s.isdigit()]: at least one character, and all of them digits. *)
Definition isdigit (s : list Char) : bool :=
  match s with
  | [] => false
  | _ => forallb char_isdigit s
  end.

(** Python's [not s] for a text. *)
Definition empty (s : list Char) : bool :=
  match s with
  | [] => true
  | _ => false
  end.

(** [validate_recipient_account] of both serializers. *)
Definition validate_recipient_account (value : list Char)
  : Invalid + list Char :=
  if empty value || empty (strip value) then inl AccountEmpty
  else if negb (isdigit value) then inl AccountNotDigits
  else inr (strip value).
End Account.

(** The two classes on the ASCII characters, as Python has them there:
    the digits [0] to [9]; tab, line feed, vertical tab, form feed, carriage
    return, the four separators 28 to 31, and the space. *)
Definition ascii_isdigit (c : Ascii.ascii) : bool :=
  let n := Ascii.nat_of_ascii c in (48 <=? n)%nat && (n <=? 57)%nat.

Definition ascii_isspace (c : Ascii.ascii) : bool :=
  let n := Ascii.nat_of_ascii c in
  ((9 <=? n)%nat && (n <=? 13)%nat) || ((28 <=? n)%nat && (n <=? 32)%nat).

(** [PaymentRequestCreateSerializer.create]: the status is set to
    [PENDING] whatever the validated data hold. *)
Definition serializer_create (validated_data : NewRequest)
  : M PaymentRequest :=
  let validated_data :=
    mkNewRequest (n_amount validated_data) (n_currency validated_data)
      (n_recipient_name validated_data) (n_recipient_account validated_data)
      (n_recipient_bank validated_data)
      (n_recipient_bank_code validated_data) PENDING
      (n_description validated_data) in
  objects_create validated_data.

(** [PaymentRequestViewSet.perform_create]: [serializer.save()]. *)
Definition perform_create (validated_data : NewRequest) : M PaymentRequest :=
  serializer_create validated_data.

(** A run during whose sleep a user cancels the request through the API
    and then deletes it. *)
Definition sim_cancel_and_delete (request_id t : Z) (success : bool)
  : Simulation :=
  mkSimulation t success
    (fun w =>
       (dispatch (view_destroy request_id)
          (dispatch (view_cancel request_id) w).2).2).

(** ** The admin actions (admin.py) *)

(** The reason the admin action gives. *)
Definition admin_reason : string := "Отклонено администратором".

(** The loop of [approve_requests]; the result is the count [updated] that
    the message shows. *)
Fixpoint approve_requests_from (updated : nat)
    (queryset : list PaymentRequest) : M nat :=
  match queryset with
  | [] => mret updated
  | payment_request :: rest =>
      if bool_decide (status payment_request = PENDING) then
        approve payment_request ;;
        approve_requests_from (S updated) rest
      else approve_requests_from updated rest
  end.

(** [PaymentRequestAdmin.approve_requests] *)
Definition approve_requests (queryset : list PaymentRequest) : M nat :=
  approve_requests_from 0 queryset.

Fixpoint reject_requests_from (updated : nat)
    (queryset : list PaymentRequest) : M nat :=
  match queryset with
  | [] => mret updated
  | payment_request :: rest =>
      if bool_decide (status payment_request ∈ [PENDING; PROCESSING]) then
        reject admin_reason payment_request ;;
        reject_requests_from (S updated) rest
      else reject_requests_from updated rest
  end.

(** [PaymentRequestAdmin.reject_requests] *)
Definition reject_requests (queryset : list PaymentRequest) : M nat :=
  reject_requests_from 0 queryset.

Fixpoint complete_requests_from (updated : nat)
    (queryset : list PaymentRequest) : M nat :=
  match queryset with
  | [] => mret updated
  | payment_request :: rest =>
      if bool_decide (status payment_request = APPROVED) then
        complete payment_request ;;
        complete_requests_from (S updated) rest
      else complete_requests_from updated rest
  end.

(** [PaymentRequestAdmin.complete_requests] *)
Definition complete_requests (queryset : list PaymentRequest) : M nat :=
  complete_requests_from 0 queryset.

(** The three bulk actions and the operation each applies. *)
Inductive Bulk : Type := BulkApprove | BulkReject | BulkComplete.

Definition bulk_action (b : Bulk) : list PaymentRequest -> M nat :=
  match b with
  | BulkApprove => approve_requests
  | BulkReject => reject_requests
  | BulkComplete => complete_requests
  end.

Definition bulk_op (b : Bulk) : Op :=
  match b with
  | BulkApprove => OpApprove
  | BulkReject => OpReject admin_reason
  | BulkComplete => OpComplete
  end.

(** The common shape of the three loops, for the proofs. *)
Fixpoint bulk_loop (op : Op) (updated : nat) (queryset : list PaymentRequest)
  : M nat :=
  match queryset with
  | [] => mret updated
  | payment_request :: rest =>
      if bool_decide (status payment_request ∈ legal_sources op) then
        apply_op op payment_request ;;
        bulk_loop op (S updated) rest
      else bulk_loop op updated rest
  end.

(** ** Tactics *)

Ltac unfold_monad := unfold mbind, M_bind, mret, M_ret in *.

(** Membership in the literal lists of states and columns. *)
Ltac mem :=
  cbn in *; rewrite ?elem_of_cons, ?elem_of_nil in *;
  intuition (congruence || discriminate).

(** ** The store *)

Lemma created_request0 : objects_create data0 world0 = (Ok request0, world1).
Proof. vm_compute. reflexivity. Qed.

Lemma save_spec fields self w row :
  db w !! pk self = Some row ->
  F_updated_at ∈ fields ->
  save fields self w =
    (Ok (set_updated_at (clock w (ticks w)) self),
     with_db (<[pk self := write_fields fields
                              (set_updated_at (clock w (ticks w)) self) row]>
                (db w))
       (with_ticks (S (ticks w)) w)).
Proof.
  intros Hrow Hin. unfold save.
  rewrite bool_decide_eq_true_2 by done.
  unfold_monad. unfold timezone_now. cbn.
  rewrite Hrow. reflexivity.
Qed.

Lemma save_missing fields self w :
  db w !! pk self = None ->
  exists w', save fields self w = (Raise DatabaseError, w').
Proof.
  intros Hrow. unfold save. unfold_monad.
  case_bool_decide; unfold timezone_now; cbn; rewrite Hrow; eauto.
Qed.

Lemma save_schedules_nothing fields self w :
  queue (save fields self w).2 = queue w /\
  hooks (save fields self w).2 = hooks w.
Proof.
  unfold save. unfold_monad. unfold timezone_now.
  case_bool_decide; cbn; destruct (db w !! pk self); done.
Qed.

Lemma run_hooks_frame hs : forall w,
  db (foldl run_hook w hs) = db w /\
  ticks (foldl run_hook w hs) = ticks w /\
  log (foldl run_hook w hs) = log w.
Proof.
  induction hs as [|[request_id countdown] hs IH]; intros w; [done|].
  cbn [foldl]. destruct (IH (run_hook w (ApplyAsync request_id countdown)))
    as (-> & -> & ->). done.
Qed.

Lemma commit_frame w :
  db (commit w) = db w /\ ticks (commit w) = ticks w /\ log (commit w) = log w.
Proof.
  unfold commit. destruct (depth w) as [|[|n]]; [done| |done].
  destruct (run_hooks_frame (hooks w) (with_hooks [] (with_depth 0 w)))
    as (-> & -> & ->). done.
Qed.

Lemma atomic_ok {A} (body : M A) w a w1 :
  body (with_depth (S (depth w)) w) = (Ok a, w1) ->
  atomic body w = (Ok a, commit w1).
Proof. intros H. unfold atomic. by rewrite H. Qed.

Lemma atomic_raise {A} (body : M A) w e w1 :
  body (with_depth (S (depth w)) w) = (Raise e, w1) ->
  atomic body w = (Raise e, rollback w w1).
Proof. intros H. unfold atomic. by rewrite H. Qed.

Lemma trigger_silent instance created w :
  created = false \/ status instance <> PENDING ->
  trigger_payment_processing instance created w = (Ok tt, w).
Proof.
  intros [->|Hst]; unfold trigger_payment_processing; [reflexivity|].
  rewrite bool_decide_eq_false_2 by done. by rewrite andb_false_r.
Qed.

(** ** The transition operations *)

Section Fired.
Context (op : Op) (t1 t2 : Time) (r : PaymentRequest).

Lemma fired_status_illegal : status (fired op t1 t2 r) ∉ legal_sources op.
Proof. destruct op; mem. Qed.

Lemma fired_pk : pk (fired op t1 t2 r) = pk r.
Proof. by destruct op. Qed.

Lemma fired_same_except : same_except (designated op) r (fired op t1 t2 r).
Proof.
  split; [by destruct op|].
  intros f Hf. destruct op, f; cbn in *; try reflexivity; mem.
Qed.

Lemma fired_open_or_completed :
  open_request r ->
  open_request (fired op t1 t2 r) \/
  status (fired op t1 t2 r) = COMPLETED /\
  is_Some (processed_at (fired op t1 t2 r)).
Proof.
  intros [Hp Hs]. destruct op; cbn; [left|left|right|left];
    split; (done || by eexists).
Qed.
End Fired.

Lemma apply_op_noop op self w :
  status self ∉ legal_sources op -> apply_op op self w = (Ok self, w).
Proof.
  intros H. destruct op; cbn in *;
    unfold approve, reject, complete, cancel, can_be_cancelled.
  all: rewrite bool_decide_eq_false_2; [reflexivity|mem].
Qed.

Lemma apply_op_fires op self w row :
  status self ∈ legal_sources op ->
  db w !! pk self = Some row ->
  let t1 := clock w (ticks w) in
  let t2 := clock w (S (ticks w)) in
  apply_op op self w =
    (Ok (fired op t1 t2 self),
     with_db (<[pk self := fired op t1 t2 row]> (db w))
       (with_ticks (reads op + ticks w) w)).
Proof.
  intros H Hrow. destruct op; cbn in *;
    unfold approve, reject, complete, cancel, can_be_cancelled;
    rewrite bool_decide_eq_true_2 by mem.
  1,2,4: erewrite save_spec; [reflexivity|exact Hrow|mem].
  unfold_monad. unfold timezone_now.
  erewrite save_spec; [reflexivity|exact Hrow|mem].
Qed.

Lemma apply_op_cases op self w :
  apply_op op self w = (Ok self, w) /\ status self ∉ legal_sources op
  \/ (exists w', apply_op op self w = (Raise DatabaseError, w'))
  \/ (exists row,
       db w !! pk self = Some row /\ status self ∈ legal_sources op /\
       apply_op op self w =
         (Ok (fired op (clock w (ticks w)) (clock w (S (ticks w))) self),
          with_db (<[pk self := fired op (clock w (ticks w))
                                  (clock w (S (ticks w))) row]> (db w))
            (with_ticks (reads op + ticks w) w))).
Proof.
  destruct (decide (status self ∈ legal_sources op)) as [Hin|Hout].
  - destruct (db w !! pk self) as [row|] eqn:Hrow.
    + right; right. exists row. auto using apply_op_fires.
    + right; left.
      destruct op; cbn in *;
        unfold approve, reject, complete, cancel, can_be_cancelled;
        rewrite bool_decide_eq_true_2 by mem.
      1,2,4: apply save_missing; exact Hrow.
      unfold_monad; unfold timezone_now.
      edestruct (save_missing [F_status; F_processed_at; F_updated_at])
        as [w' Hw']; [|rewrite Hw'; eauto]. exact Hrow.
  - left. auto using apply_op_noop.
Qed.

Lemma terminal_illegal op self :
  terminal (status self) = true -> status self ∉ legal_sources op.
Proof. destruct op, (status self); cbn; intros; try discriminate; mem. Qed.

Lemma run_ops_frozen ops self w :
  (forall op, status self ∉ legal_sources op) ->
  run_ops ops self w = (Ok (replicate (S (length ops)) self), w).
Proof.
  intros Hfrozen. induction ops as [|op ops IH]; [reflexivity|].
  cbn [run_ops]. unfold_monad.
  rewrite apply_op_noop by apply Hfrozen. rewrite IH. reflexivity.
Qed.

(** *** Illegal calls *)

(** C5.  A transition operation called on a request whose status is outside
    the operation's legal source states returns normally and changes
    nothing: the instance comes back as it was, with every field including
    [status], [updated_at], [rejection_reason] and [processed_at], and the
    world (table, clock, log, queue) is the same.  And whenever a call of an
    operation returned, calling the same operation again at once is such a
    no-op. *)
Theorem illegal_call_is_silent_noop
    (op : Op) (self : PaymentRequest) (w : World) :
  (status self ∉ legal_sources op -> apply_op op self w = (Ok self, w)) /\
  (forall self1 w1,
     apply_op op self w = (Ok self1, w1) ->
     apply_op op self1 w1 = (Ok self1, w1)).
Proof.
  split; [apply apply_op_noop|].
  intros self1 w1 Hfirst.
  destruct (apply_op_cases op self w)
    as [[Hnoop Hout]|[[w' Hraise]|(row & _ & _ & Hfire)]].
  - rewrite Hnoop in Hfirst. injection Hfirst as <- <-. exact Hnoop.
  - rewrite Hraise in Hfirst. discriminate.
  - rewrite Hfire in Hfirst. injection Hfirst as <- <-.
    apply apply_op_noop, fired_status_illegal.
Qed.

(** [complete()] on the pending request 1 is a no-op, and so is a second
    [cancel()] after a first. *)
Lemma illegal_call_is_silent_noop_witness :
  apply_op OpComplete request0 world1 = (Ok request0, world1) /\
  forall self1 w1,
    apply_op OpCancel request0 world1 = (Ok self1, w1) ->
    apply_op OpCancel self1 w1 = (Ok self1, w1).
Proof.
  split.
  - apply (proj1 (illegal_call_is_silent_noop OpComplete request0 world1)).
    apply not_elem_of_cons. split; [discriminate|apply not_elem_of_nil].
  - apply (proj2 (illegal_call_is_silent_noop OpCancel request0 world1)).
Defined.

(** *** Frame of a successful transition *)

(** C10.  A transition operation called from one of its legal source states
    on a request whose row exists returns normally, and both the instance
    and the stored row change at most on the operation's designated columns
    ([status] and [updated_at] for approve and cancel, also
    [rejection_reason] for reject, also [processed_at] for complete):
    [pk], [amount], [currency], the [recipient_*] columns, [description] and
    [created_at] stay as they were, whatever the row held.  The other rows,
    the id sequence, the pending callbacks, the queue and the log are
    untouched. *)
Theorem transition_writes_only_designated
    (op : Op) (self row : PaymentRequest) (w : World) :
  status self ∈ legal_sources op ->
  db w !! pk self = Some row ->
  exists self' row' w',
    apply_op op self w = (Ok self', w') /\
    db w' = <[pk self := row']> (db w) /\
    same_except (designated op) self self' /\
    same_except (designated op) row row' /\
    (forall f, f ∈ designated op -> same_field f self' row') /\
    next_pk w' = next_pk w /\ hooks w' = hooks w /\
    queue w' = queue w /\ log w' = log w.
Proof.
  intros Hin Hrow. eexists _, _, _.
  split; [apply apply_op_fires; eassumption|].
  split; [reflexivity|].
  split; [apply fired_same_except|].
  split; [apply fired_same_except|].
  split; [|done].
  intros f Hf. destruct op, f; cbn in *; try reflexivity; mem.
Qed.

(** [reject("duplicate")] on the pending request 1. *)
Lemma transition_writes_only_designated_witness :
  exists self' row' w',
    apply_op (OpReject "duplicate") request0 world1 = (Ok self', w') /\
    db w' = <[1 := row']> (db world1) /\
    same_except (designated (OpReject "duplicate")) request0 self' /\
    same_except (designated (OpReject "duplicate")) request0 row' /\
    (forall f, f ∈ designated (OpReject "duplicate") ->
               same_field f self' row') /\
    next_pk w' = next_pk world1 /\ hooks w' = hooks world1 /\
    queue w' = queue world1 /\ log w' = log world1.
Proof.
  apply (transition_writes_only_designated (OpReject "duplicate")
           request0 request0 world1).
  - cbn. apply list_elem_of_here.
  - reflexivity.
Defined.

(** *** Terminal states *)

(** C6.  On a request whose status is [REJECTED], [COMPLETED] or
    [CANCELLED], every sequence of approve, reject, complete and cancel
    calls returns normally and leaves the request as it is after each call,
    its status in particular; nothing else in the world changes either. *)
Theorem terminal_states_absorbing
    (ops : list Op) (self : PaymentRequest) (w : World) :
  terminal (status self) = true ->
  run_ops ops self w = (Ok (replicate (S (length ops)) self), w).
Proof.
  intros Hterm. apply run_ops_frozen. intros op. by apply terminal_illegal.
Qed.

(** Four calls on the rejected request 1. *)
Lemma terminal_states_absorbing_witness :
  run_ops [OpApprove; OpComplete; OpCancel; OpReject "again"]
    request_rejected world1
  = (Ok (replicate 5 request_rejected), world1).
Proof.
  apply (terminal_states_absorbing
           [OpApprove; OpComplete; OpCancel; OpReject "again"]
           request_rejected world1).
  reflexivity.
Defined.

(** *** processed_at *)

Lemma settled_cons r tr : open_request r -> settled tr -> settled (r :: tr).
Proof.
  intros Hr (pre & c & n & -> & Hpre & Hc).
  exists (r :: pre), c, n. by repeat split; [constructor|..]; try apply Hc.
Qed.

Lemma run_ops_settled ops : forall self w,
  open_request self ->
  is_Some (db w !! pk self) ->
  exists tr w', run_ops ops self w = (Ok tr, w') /\ settled tr.
Proof.
  induction ops as [|op ops IH]; intros self w Hopen [row Hrow].
  - exists [self], w. split; [reflexivity|].
    exists [self], (set_processed_at (Some 0) (set_status COMPLETED self)),
      0%nat.
    repeat split; [by constructor|by eexists].
  - cbn [run_ops]. unfold_monad.
    destruct (decide (status self ∈ legal_sources op)) as [Hin|Hout].
    + rewrite (apply_op_fires op self w row Hin Hrow).
      set (self' := fired op _ _ self). set (w' := with_db _ _).
      destruct (fired_open_or_completed op (clock w (ticks w))
                  (clock w (S (ticks w))) self Hopen) as [Hopen'|[Hc Hp]];
        fold self' in Hopen' || fold self' in Hc, Hp.
      * destruct (IH self' w') as (tr & w'' & Hrun & Hset); [done| |].
        { subst self' w'. rewrite fired_pk. cbn. rewrite lookup_insert_eq.
          by eexists. }
        rewrite Hrun. eexists _, _. split; [reflexivity|].
        by apply settled_cons.
      * rewrite run_ops_frozen
          by (intros op'; apply terminal_illegal; by rewrite Hc).
        eexists _, _. split; [reflexivity|].
        exists [self], self', (S (length ops)).
        repeat split; [by constructor|done..].
    + rewrite (apply_op_noop op self w Hout).
      destruct (IH self w) as (tr & w'' & Hrun & Hset); [done|by eexists|].
      rewrite Hrun. eexists _, _. split; [reflexivity|].
      by apply settled_cons.
Qed.

Lemma settled_lookup tr i r :
  settled tr -> tr !! i = Some r ->
  open_request r /\
  (forall j r', (j <= i)%nat -> tr !! j = Some r' -> open_request r')
  \/ status r = COMPLETED /\ is_Some (processed_at r) /\
     (forall j r', (i <= j)%nat -> tr !! j = Some r' -> r' = r).
Proof.
  intros (pre & c & n & -> & Hpre & Hc & Hp) Hi.
  rewrite Forall_lookup in Hpre.
  destruct (decide (i < length pre)%nat) as [Hlt|Hge].
  - left. rewrite lookup_app_l in Hi by done. split; [eauto|].
    intros j r' Hj Hr'. rewrite lookup_app_l in Hr' by lia. eauto.
  - right. rewrite lookup_app_r in Hi by lia.
    apply lookup_replicate in Hi as [-> _]. repeat split; [done..|].
    intros j r' Hj Hr'. rewrite lookup_app_r in Hr' by lia.
    by apply lookup_replicate in Hr' as [-> _].
Qed.

(** C7.  Take a pending request with [processed_at] null whose row exists,
    and any sequence of approve, reject, complete and cancel calls on it.
    All calls return, and in the history [tr] of the request (before the
    first call and after each call): [processed_at] is non-null at a point
    exactly when the status is [COMPLETED] there or was at an earlier point;
    and a value [processed_at] has at one point it has at every later
    point. *)
Theorem processed_at_iff_completed
    (ops : list Op) (self : PaymentRequest) (w : World) :
  status self = PENDING ->
  processed_at self = None ->
  is_Some (db w !! pk self) ->
  exists tr w',
    run_ops ops self w = (Ok tr, w') /\
    (forall i r, tr !! i = Some r ->
       (is_Some (processed_at r) <->
        exists j r',
          (j <= i)%nat /\ tr !! j = Some r' /\ status r' = COMPLETED)) /\
    (forall i j r r' t, (i <= j)%nat ->
       tr !! i = Some r -> tr !! j = Some r' ->
       processed_at r = Some t -> processed_at r' = Some t).
Proof.
  intros Hst Hp Hrow.
  destruct (run_ops_settled ops self w) as (tr & w' & Hrun & Hset);
    [split; congruence|done|].
  exists tr, w'. split; [done|]. split.
  - intros i r Hi.
    destruct (settled_lookup tr i r Hset Hi)
      as [[[Hnone Hs] Hbefore]|(Hc & Hsome & _)].
    + split.
      * rewrite Hnone. by intros [? ?].
      * intros (j & r' & Hj & Hr' & Hcompl).
        destruct (Hbefore j r' Hj Hr') as [_ Hne]. done.
    + split; [|done]. intros _. exists i, r. done.
  - intros i j r r' t Hij Hi Hj Ht.
    destruct (settled_lookup tr i r Hset Hi)
      as [[[Hnone _] _]|(_ & _ & Hafter)].
    + congruence.
    + by rewrite (Hafter j r' Hij Hj).
Qed.

(** approve, complete, cancel, complete on the freshly created request 1. *)
Lemma processed_at_iff_completed_witness :
  exists tr w',
    run_ops [OpApprove; OpComplete; OpCancel; OpComplete] request0 world1
    = (Ok tr, w') /\
    (forall i r, tr !! i = Some r ->
       (is_Some (processed_at r) <->
        exists j r',
          (j <= i)%nat /\ tr !! j = Some r' /\ status r' = COMPLETED)) /\
    (forall i j r r' t, (i <= j)%nat ->
       tr !! i = Some r -> tr !! j = Some r' ->
       processed_at r = Some t -> processed_at r' = Some t).
Proof.
  apply (processed_at_iff_completed
           [OpApprove; OpComplete; OpCancel; OpComplete] request0 world1).
  - reflexivity.
  - reflexivity.
  - exists request0. reflexivity.
Defined.

(** *** Leaving PROCESSING *)

Lemma processing_never_approved op self w self' w' :
  status self = PROCESSING ->
  apply_op op self w = (Ok self', w') ->
  status self' <> APPROVED.
Proof.
  intros Hst Hcall.
  destruct (apply_op_cases op self w)
    as [[Hnoop _]|[[w0 Hraise]|(row & _ & Hin & Hfire)]].
  - rewrite Hnoop in Hcall. injection Hcall as <- <-. congruence.
  - rewrite Hraise in Hcall. discriminate.
  - rewrite Hfire in Hcall. injection Hcall as <- <-.
    destruct op; cbn; try discriminate. rewrite Hst in Hin. mem.
Qed.

Lemma processing_can_be_left reason self w row :
  status self = PROCESSING ->
  db w !! pk self = Some row ->
  (exists self' w', reject reason self w = (Ok self', w') /\
                    status self' = REJECTED /\
                    rejection_reason self' = reason) /\
  (exists self' w', cancel self w = (Ok self', w') /\
                    status self' = CANCELLED).
Proof.
  intros Hst Hrow. split.
  - eexists _, _.
    split; [apply (apply_op_fires (OpReject reason) self w row);
            [cbn; rewrite Hst; mem|done]|done].
  - eexists _, _.
    split; [apply (apply_op_fires OpCancel self w row);
            [cbn; rewrite Hst; mem|done]|done].
Qed.

(** C2 fails on the code for [APPROVED].  On request 1 in [PROCESSING]:
    [approve()] returns with the request and the world unchanged, and no
    single call of approve, reject, complete or cancel yields status
    [APPROVED]; [reject] and [cancel] do reach [REJECTED] and
    [CANCELLED]. *)
Theorem approve_from_processing_is_a_noop :
  approve request_processing world_processing
  = (Ok request_processing, world_processing) /\
  (forall op self' w',
     apply_op op request_processing world_processing = (Ok self', w') ->
     status self' <> APPROVED) /\
  (exists self' w',
     reject "declined" request_processing world_processing = (Ok self', w') /\
     status self' = REJECTED) /\
  (exists self' w',
     cancel request_processing world_processing = (Ok self', w') /\
     status self' = CANCELLED).
Proof.
  split; [reflexivity|]. split.
  - intros op self' w'. by apply processing_never_approved.
  - destruct (processing_can_be_left "declined" request_processing
                world_processing request_processing)
      as [(r1 & w1 & H1 & Hs1 & _) (r2 & w2 & H2 & Hs2)]; [done..|].
    split; eauto.
Qed.

(** *** The rejection reason *)

(** C3 fails on the code.  Creating request 1 and calling [reject()] with
    its default argument, the empty string (what the API action passes when
    the body has no ["reason"]), returns a request, stored as row 1, whose
    status is [REJECTED] and whose [rejection_reason] is the empty string. *)
Theorem reject_without_reason_leaves_empty_reason :
  exists self w,
    (created ← objects_create data0; reject EmptyString created) world0
    = (Ok self, w) /\
    status self = REJECTED /\
    rejection_reason self = EmptyString /\
    db w !! 1 = Some self.
Proof.
  eexists _, _. split; [vm_compute; reflexivity|].
  repeat split; vm_compute; reflexivity.
Qed.

(** With a reason, [reject] records it. *)
Lemma reject_records_reason reason self w row :
  status self ∈ [PENDING; PROCESSING] ->
  db w !! pk self = Some row ->
  exists self' row' w',
    reject reason self w = (Ok self', w') /\
    db w' !! pk self = Some row' /\
    status self' = REJECTED /\ rejection_reason self' = reason /\
    status row' = REJECTED /\ rejection_reason row' = reason.
Proof.
  intros Hin Hrow. eexists _, _, _.
  split; [apply (apply_op_fires (OpReject reason) self w row); done|].
  cbn. by rewrite lookup_insert_eq.
Qed.

(** ** Scheduling *)

(** C8.  In a store with no transaction open and a fresh next id, creating
    a request inside a transaction returns the new request, stored under
    that id.  When its status is [PENDING], the creation registers exactly
    one post-commit callback for that id with countdown 2 and queues
    nothing before the commit, and after the commit the queue holds exactly
    one more invocation, for that id with countdown 2.  When its status is
    not [PENDING], no callback is registered and the queue is unchanged.  A
    save of an existing request ([save] with [update_fields]) registers no
    callback and queues nothing, from any world; and the receiver itself,
    called with [created=False] or for a request that is not [PENDING],
    changes nothing at all. *)
Theorem creation_schedules_exactly_one (data : NewRequest) (w : World) :
  depth w = O -> hooks w = [] -> db w !! next_pk w = None ->
  let request_id := next_pk w in
  let inside := (objects_create data (with_depth 1 w)).2 in
  let after := (atomic (objects_create data) w).2 in
  (exists self, (atomic (objects_create data) w).1 = Ok self /\
                pk self = request_id /\ status self = n_status data /\
                db after !! request_id = Some self) /\
  (n_status data = PENDING ->
     hooks inside = [ApplyAsync request_id 2] /\ queue inside = queue w /\
     hooks after = [] /\
     queue after = (queue w ++ [mkDelivery request_id 2])%list) /\
  (n_status data <> PENDING ->
     hooks inside = [] /\ queue inside = queue w /\
     hooks after = [] /\ queue after = queue w) /\
  (forall fields self w0,
     queue (save fields self w0).2 = queue w0 /\
     hooks (save fields self w0).2 = hooks w0) /\
  (forall instance created w0,
     created = false \/ status instance <> PENDING ->
     trigger_payment_processing instance created w0 = (Ok tt, w0)).
Proof.
  intros Hdepth Hhooks Hfresh. cbn zeta.
  unfold atomic, objects_create, trigger_payment_processing.
  unfold_monad. unfold timezone_now, on_commit, logger, commit. cbn.
  rewrite Hfresh, Hdepth. cbn.
  destruct (decide (n_status data = PENDING)) as [Hst|Hst];
    [rewrite !bool_decide_eq_true_2 by done
    |rewrite !bool_decide_eq_false_2 by done];
    cbn; rewrite ?Hhooks; cbn.
  - split; [eexists; split; [reflexivity|]; cbn;
            by rewrite lookup_insert_eq|].
    split; [done|]. split; [done|].
    split; [apply save_schedules_nothing|apply trigger_silent].
  - split; [eexists; split; [reflexivity|]; cbn;
            by rewrite lookup_insert_eq|].
    split; [done|]. split; [done|].
    split; [apply save_schedules_nothing|apply trigger_silent].
Qed.

(** The creation of request 1 in the empty store. *)
Lemma creation_schedules_exactly_one_witness :
  let inside := (objects_create data0 (with_depth 1 world0)).2 in
  let after := (atomic (objects_create data0) world0).2 in
  (exists self, (atomic (objects_create data0) world0).1 = Ok self /\
                pk self = 1 /\ status self = PENDING /\
                db after !! 1 = Some self) /\
  (PENDING = PENDING ->
     hooks inside = [ApplyAsync 1 2] /\ queue inside = [] /\
     hooks after = [] /\ queue after = [mkDelivery 1 2]) /\
  (PENDING <> PENDING ->
     hooks inside = [] /\ queue inside = [] /\
     hooks after = [] /\ queue after = []) /\
  (forall fields self w0,
     queue (save fields self w0).2 = queue w0 /\
     hooks (save fields self w0).2 = hooks w0) /\
  (forall instance created w0,
     created = false \/ status instance <> PENDING ->
     trigger_payment_processing instance created w0 = (Ok tt, w0)).
Proof.
  apply (creation_schedules_exactly_one data0 world0); reflexivity.
Defined.

(** ** The worker *)

Lemma lock_phase_pending request_id w r :
  db w !! request_id = Some r ->
  status r = PENDING ->
  pk r = request_id ->
  exists w1,
    lock_phase request_id w = (Ok None, w1) /\
    db w1 = <[request_id := set_updated_at (clock w (ticks w))
                              (set_status PROCESSING r)]> (db w) /\
    log w1 = (log w ++ [(INFO, MsgNowProcessing request_id)])%list.
Proof.
  intros Hrow Hst Hpk. unfold lock_phase, try_except.
  erewrite atomic_ok; [eexists; split; [reflexivity|]|].
  - destruct (commit_frame
                (with_log (log w ++ [(INFO, MsgNowProcessing request_id)])
                   (with_db
                      (<[request_id := set_updated_at (clock w (ticks w))
                                         (set_status PROCESSING r)]> (db w))
                      (with_ticks (S (ticks w))
                         (with_depth (S (depth w)) w)))))
      as (-> & _ & ->). done.
  - unfold select_for_update_get, logger. unfold_monad. cbn. rewrite Hrow.
    rewrite bool_decide_eq_false_2 by (intros H; by apply H).
    erewrite save_spec; [|cbn; rewrite Hpk; exact Hrow|mem].
    cbn. rewrite Hpk. reflexivity.
Qed.

Lemma terminal_phase_not_pending request_id w r :
  db w !! request_id = Some r ->
  status r <> PENDING ->
  exists w1,
    terminal_phase true request_id w = (Ok Approved, w1) /\
    db w1 = db w /\
    log w1 = (log w ++ [(INFO, MsgApproved request_id)])%list.
Proof.
  intros Hrow Hst. unfold terminal_phase.
  erewrite atomic_ok; [eexists; split; [reflexivity|]|].
  - destruct (commit_frame
                (with_log (log w ++ [(INFO, MsgApproved request_id)])
                   (with_depth (S (depth w)) w))) as (-> & _ & ->). done.
  - unfold select_for_update_get, logger, approve. unfold_monad. cbn.
    rewrite Hrow. rewrite bool_decide_eq_false_2 by done. reflexivity.
Qed.

Lemma terminal_phase_missing success request_id w :
  db w !! request_id = None ->
  terminal_phase success request_id w = (Raise DoesNotExist, w).
Proof.
  intros Hrow. unfold terminal_phase.
  erewrite atomic_raise.
  2:{ unfold select_for_update_get. unfold_monad. cbn. rewrite Hrow.
      reflexivity. }
  unfold rollback. destruct w; reflexivity.
Qed.

(** A run on a pending request whose gateway call succeeds, with nobody
    else writing to the table meanwhile, reports [Approved] and leaves the
    row in [PROCESSING]. *)
Lemma worker_success_stays_processing sim request_id w r :
  db w !! request_id = Some r ->
  status r = PENDING ->
  pk r = request_id ->
  is_success sim = true ->
  (forall w0, db (meanwhile sim w0) = db w0) ->
  exists w',
    process_payment_request sim request_id w =
      (Ok (Processed (processing_time sim) Approved), w') /\
    db w' = <[request_id := set_updated_at (clock w (ticks w))
                              (set_status PROCESSING r)]> (db w).
Proof.
  intros Hrow Hst Hpk Hok Hquiet.
  unfold process_payment_request. unfold_monad.
  destruct (lock_phase_pending request_id
              (with_log (log w ++ [(INFO, MsgStarting request_id)]) w) r)
    as (w1 & Hlock & Hdb1 & _); [done..|].
  unfold logger at 1. rewrite Hlock. unfold time_sleep. rewrite Hok.
  destruct (terminal_phase_not_pending request_id (meanwhile sim w1)
              (set_updated_at (clock w (ticks w)) (set_status PROCESSING r)))
    as (w2 & Hterm & Hdb2 & _).
  { rewrite Hquiet, Hdb1. cbn. by rewrite lookup_insert_eq. }
  { done. }
  rewrite Hterm. eexists. split; [reflexivity|].
  rewrite Hdb2, Hquiet, Hdb1. reflexivity.
Qed.

(** X2.  A run for an id that has no row when the first lock is taken logs
    its start and the "not found" error and returns ["Failed: Request not
    found"]; nothing but the log changes, and no exception leaves the run. *)
Theorem worker_not_found_at_lock
    (sim : Simulation) (request_id : Z) (w : World) :
  db w !! request_id = None ->
  process_payment_request sim request_id w =
    (Ok FailedNotFound,
     with_log (log w ++ [(INFO, MsgStarting request_id);
                         (ERROR, MsgNotFound request_id)])%list w).
Proof.
  intros Hrow.
  unfold process_payment_request, lock_phase, try_except, atomic,
    select_for_update_get, logger, rollback.
  unfold_monad. cbn. rewrite Hrow. cbn.
  rewrite <- app_assoc. destruct w; reflexivity.
Qed.

(** A run for the id 7, which the store never held. *)
Lemma worker_not_found_at_lock_witness :
  process_payment_request sim_quiet_success 7 world1 =
    (Ok FailedNotFound,
     with_log (log world1 ++ [(INFO, MsgStarting 7);
                              (ERROR, MsgNotFound 7)])%list world1).
Proof.
  apply (worker_not_found_at_lock sim_quiet_success 7 world1). reflexivity.
Defined.

(** C4.  A run for a request that exists and whose status, read under the
    lock, is not [PENDING] returns ["Skipped: Status is <status>"]: a
    returned value, which Celery records as a success and does not retry.
    The table is the same afterwards (no row and no field written,
    [updated_at] included), the clock was not read, and the run logged its
    start and the warning that it skips, nothing else. *)
Theorem worker_skips_when_not_pending
    (sim : Simulation) (request_id : Z) (w : World) (r : PaymentRequest) :
  db w !! request_id = Some r ->
  status r <> PENDING ->
  exists w',
    process_payment_request sim request_id w = (Ok (Skipped (status r)), w') /\
    task_state (process_payment_request sim request_id w).1 = SUCCESS /\
    db w' = db w /\
    ticks w' = ticks w /\
    log w' = (log w ++ [(INFO, MsgStarting request_id);
                        (WARNING, MsgNotPending request_id (status r))])%list.
Proof.
  intros Hrow Hst.
  unfold process_payment_request, lock_phase, try_except, atomic,
    select_for_update_get, logger.
  unfold_monad. cbn. rewrite Hrow.
  rewrite bool_decide_eq_true_2 by done. cbn.
  eexists. split; [reflexivity|]. split; [reflexivity|].
  destruct (depth w); cbn;
    [match goal with |- db (foldl run_hook ?w0 ?hs) = _ /\ _ =>
       destruct (run_hooks_frame hs w0) as (-> & -> & ->) end; cbn|];
    by rewrite <- app_assoc.
Qed.

(** A duplicate delivery for request 1 while it is in [PROCESSING]. *)
Lemma worker_skips_when_not_pending_witness :
  exists w',
    process_payment_request sim_quiet_success 1 world_processing
    = (Ok (Skipped PROCESSING), w') /\
    task_state
      (process_payment_request sim_quiet_success 1 world_processing).1
    = SUCCESS /\
    db w' = db world_processing /\
    ticks w' = ticks world_processing /\
    log w' = (log world_processing ++
              [(INFO, MsgStarting 1);
               (WARNING, MsgNotPending 1 PROCESSING)])%list.
Proof.
  apply (worker_skips_when_not_pending sim_quiet_success 1 world_processing
           request_processing).
  - reflexivity.
  - discriminate.
Defined.

(** C1 fails on the code.  The run for the pending request 1 whose gateway
    call succeeds, with nobody else touching the store, returns
    ["Processed in 3.00s: Approved"] and logs "successfully APPROVED", but
    the row is left with status [PROCESSING], not [APPROVED]: [approve()]
    only acts on [PENDING], and the run itself moved the row to
    [PROCESSING].  [processed_at] is still null. *)
Theorem worker_success_leaves_request_processing :
  let out := process_payment_request sim_quiet_success 1 world1 in
  out.1 = Ok (Processed 3000 Approved) /\
  db out.2 !! 1 = Some request_processing /\
  status request_processing = PROCESSING /\
  processed_at request_processing = None /\
  log out.2 = [(INFO, MsgScheduled 1); (INFO, MsgStarting 1);
               (INFO, MsgNowProcessing 1); (INFO, MsgApproved 1)].
Proof. cbv zeta. repeat split; vm_compute; reflexivity. Qed.

(** C9 fails on the code in the case it includes.  The run for the pending
    request 1 moves the row to [PROCESSING]; the row is deleted while the
    run sleeps; the second [get] raises [DoesNotExist] outside the
    [try]/[except], so the run ends with that exception: Celery records a
    failure (and no retry), but the run returns no ["Failed: Request not
    found"] and logs no "not found" error. *)
Theorem worker_raises_when_row_deleted_midway :
  let out := process_payment_request sim_row_deleted 1 world1 in
  out.1 = Raise DoesNotExist /\
  task_state out.1 = FAILURE /\
  log out.2 = [(INFO, MsgScheduled 1); (INFO, MsgStarting 1);
               (INFO, MsgNowProcessing 1)] /\
  db out.2 = ∅.
Proof. cbv zeta. repeat split; vm_compute; reflexivity. Qed.

(** ** Further properties *)

(** X1.  A call of a transition operation that returns either changed
    nothing (instance and world) or moved the status along an edge of the
    transition graph. *)
Theorem transitions_follow_graph
    (op : Op) (self self' : PaymentRequest) (w w' : World) :
  apply_op op self w = (Ok self', w') ->
  self' = self /\ w' = w \/ edge (status self) (status self') = true.
Proof.
  intros Hcall.
  destruct (apply_op_cases op self w)
    as [[Hnoop _]|[[w0 Hraise]|(row & _ & Hin & Hfire)]].
  - rewrite Hnoop in Hcall. injection Hcall as <- <-. by left.
  - rewrite Hraise in Hcall. discriminate.
  - rewrite Hfire in Hcall. injection Hcall as <- <-. right.
    destruct op; cbn in *; rewrite ?elem_of_cons, ?elem_of_nil in Hin;
      destruct Hin as [->|Hin]; try reflexivity;
      try destruct Hin as [->|Hin]; try reflexivity; done.
Qed.

(** [approve()] on the pending request 1 at instant 12. *)
Lemma transitions_follow_graph_witness :
  fired OpApprove 12 13 request0 = request0 /\
  with_db (<[1 := fired OpApprove 12 13 request0]> (db world1))
    (with_ticks 3 world1) = world1
  \/ edge PENDING APPROVED = true.
Proof.
  apply (transitions_follow_graph OpApprove request0
           (fired OpApprove 12 13 request0) world1
           (with_db (<[1 := fired OpApprove 12 13 request0]> (db world1))
              (with_ticks 3 world1))).
  reflexivity.
Defined.

Lemma terminal_phase_rejects request_id w r :
  db w !! request_id = Some r ->
  status r = PROCESSING ->
  pk r = request_id ->
  let reason := "Rejected by external system (simulated failure)" in
  exists w1,
    terminal_phase false request_id w = (Ok Rejected, w1) /\
    db w1 = <[request_id := fired (OpReject reason) (clock w (ticks w))
                              (clock w (S (ticks w))) r]> (db w) /\
    log w1 = (log w ++ [(WARNING, MsgRejected request_id reason)])%list.
Proof.
  intros Hrow Hst Hpk reason. unfold terminal_phase.
  erewrite atomic_ok; [eexists; split; [reflexivity|]|].
  - destruct (commit_frame
                (with_log (log w ++ [(WARNING, MsgRejected request_id reason)])
                   (with_db
                      (<[request_id := fired (OpReject reason)
                                         (clock w (ticks w))
                                         (clock w (S (ticks w))) r]> (db w))
                      (with_ticks (S (ticks w))
                         (with_depth (S (depth w)) w)))))
      as (-> & _ & ->). done.
  - unfold select_for_update_get, logger. unfold_monad. cbn. rewrite Hrow.
    pose proof (apply_op_fires (OpReject reason) r
                  (with_depth (S (depth w)) w) r) as Hfire.
    cbn in Hfire. fold reason.
    rewrite Hfire; [|rewrite Hst; mem|by rewrite Hpk].
    cbn. rewrite Hpk. reflexivity.
Qed.

(** X3.  A run on a pending request whose gateway call fails, with nobody
    else writing to the table meanwhile, returns ["Processed in <t>s:
    Rejected"] and leaves the row [REJECTED] with the non-empty reason
    ["Rejected by external system (simulated failure)"], [processed_at] and
    the payload columns as they were. *)
Theorem worker_failure_rejects
    (sim : Simulation) (request_id : Z) (w : World) (r : PaymentRequest) :
  db w !! request_id = Some r ->
  status r = PENDING ->
  pk r = request_id ->
  is_success sim = false ->
  (forall w0, db (meanwhile sim w0) = db w0) ->
  exists w' row,
    process_payment_request sim request_id w =
      (Ok (Processed (processing_time sim) Rejected), w') /\
    db w' !! request_id = Some row /\
    status row = REJECTED /\
    rejection_reason row = "Rejected by external system (simulated failure)" /\
    processed_at row = processed_at r /\
    same_payload r row.
Proof.
  intros Hrow Hst Hpk Hko Hquiet.
  unfold process_payment_request. unfold_monad.
  destruct (lock_phase_pending request_id
              (with_log (log w ++ [(INFO, MsgStarting request_id)]) w) r)
    as (w1 & Hlock & Hdb1 & _); [done..|].
  unfold logger at 1. rewrite Hlock. unfold time_sleep. rewrite Hko.
  destruct (terminal_phase_rejects request_id (meanwhile sim w1)
              (set_updated_at (clock w (ticks w)) (set_status PROCESSING r)))
    as (w2 & Hterm & Hdb2 & _).
  { rewrite Hquiet, Hdb1. cbn. by rewrite lookup_insert_eq. }
  { done. }
  { done. }
  rewrite Hterm. eexists _, _. split; [reflexivity|].
  rewrite Hdb2. rewrite lookup_insert_eq. done.
Qed.

(** The failing run for the pending request 1. *)
Lemma worker_failure_rejects_witness :
  exists w' row,
    process_payment_request sim_quiet_failure 1 world1 =
      (Ok (Processed 3000 Rejected), w') /\
    db w' !! 1 = Some row /\
    status row = REJECTED /\
    rejection_reason row = "Rejected by external system (simulated failure)" /\
    processed_at row = None /\
    same_payload request0 row.
Proof.
  apply (worker_failure_rejects sim_quiet_failure 1 world1 request0).
  - reflexivity.
  - reflexivity.
  - reflexivity.
  - reflexivity.
  - intros w0. reflexivity.
Defined.

(** X4.  When the transaction that created a request is rolled back by an
    exception, the table is what it was before, no callback is left and
    nothing was put on the queue. *)
Theorem rollback_schedules_nothing
    (data : NewRequest) (e : Exn) (w : World) :
  depth w = O -> hooks w = [] ->
  let out := atomic (objects_create data ;; (raise e : M unit)) w in
  (exists e', out.1 = Raise e') /\
  db out.2 = db w /\ queue out.2 = queue w /\ hooks out.2 = [].
Proof.
  intros Hdepth Hhooks. cbn zeta.
  unfold atomic, objects_create, trigger_payment_processing, raise, rollback.
  unfold_monad. unfold timezone_now, on_commit, logger. cbn.
  destruct (db w !! next_pk w); cbn; [by eauto|].
  case_bool_decide; cbn; eauto.
Qed.

(** The creation of request 1 in the empty store, rolled back. *)
Lemma rollback_schedules_nothing_witness :
  let out :=
    atomic (objects_create data0 ;; (raise DatabaseError : M unit)) world0 in
  (exists e', out.1 = Raise e') /\
  db out.2 = ∅ /\ queue out.2 = [] /\ hooks out.2 = [].
Proof.
  apply (rollback_schedules_nothing data0 DatabaseError world0); reflexivity.
Defined.

(** ** The API layer *)

Lemma dispatch_ok view w response w1 :
  view (with_depth (S (depth w)) w) = (Ok (inr response), w1) ->
  dispatch view w = (Ok response, commit w1).
Proof. intros H. unfold dispatch. by rewrite H. Qed.

Lemma dispatch_api_exception view w e w1 :
  view (with_depth (S (depth w)) w) = (Ok (inl e), w1) ->
  dispatch view w = (Ok (exception_handler e), rollback w w1).
Proof. intros H. unfold dispatch. by rewrite H. Qed.

Lemma rollback_entered w : rollback w (with_depth (S (depth w)) w) = w.
Proof. by destruct w. Qed.

Lemma view_bind_found key (k : PaymentRequest -> View) w instance :
  db w !! key = Some instance ->
  view_bind (get_object key) k w = k instance w.
Proof.
  intros H. unfold view_bind, get_object. unfold_monad. by rewrite H.
Qed.

Lemma view_bind_missing key (k : PaymentRequest -> View) w :
  db w !! key = None ->
  view_bind (get_object key) k w = (Ok (inl Http404), w).
Proof.
  intros H. unfold view_bind, get_object. unfold_monad. by rewrite H.
Qed.


Lemma view_action_performs a key w r :
  db w !! key = Some r ->
  pk r = key ->
  status r ∈ legal_sources (action_op a) ->
  let instance :=
    fired (action_op a) (clock w (ticks w)) (clock w (S (ticks w))) r in
  view_action a key w =
    (Ok (inr (mkResponse HTTP_200_OK (BodyRequest instance))),
     with_db (<[key := instance]> (db w))
       (with_ticks (reads (action_op a) + ticks w) w)).
Proof.
  intros Hrow Hpk Hin instance.
  pose proof (apply_op_fires (action_op a) r w r Hin) as Hfire.
  rewrite Hpk in Hfire. specialize (Hfire Hrow). cbn zeta in Hfire.
  destruct a; cbn in *;
    unfold view_approve, view_reject, view_complete, view_cancel,
      can_be_cancelled;
    rewrite (view_bind_found _ _ _ _ Hrow); cbn.
  - rewrite bool_decide_eq_false_2 by mem.
    unfold_monad. rewrite Hfire. reflexivity.
  - rewrite bool_decide_eq_false_2 by mem.
    unfold_monad. rewrite Hfire. reflexivity.
  - rewrite bool_decide_eq_false_2 by mem.
    unfold_monad. rewrite Hfire. reflexivity.
  - rewrite bool_decide_eq_true_2 by mem.
    unfold_monad. cbn. rewrite Hfire. reflexivity.
Qed.



(** X6.  [destroy] on an existing request deletes its row, and only that
    row, and answers 204 unless the request is [COMPLETED] or [PROCESSING];
    in those two states it answers 400 and the table stays as it is. *)
Theorem destroy_spares_processing_and_completed
    (key : Z) (w : World) (r : PaymentRequest) :
  db w !! key = Some r ->
  pk r = key ->
  exists w',
    dispatch (view_destroy key) w
    = (Ok (if bool_decide (status r ∈ [COMPLETED; PROCESSING])
           then mkResponse HTTP_400_BAD_REQUEST
                  (BodyDetail (CannotDelete (status r)))
           else mkResponse HTTP_204_NO_CONTENT BodyEmpty), w') /\
    db w' = (if bool_decide (status r ∈ [COMPLETED; PROCESSING])
             then db w else delete key (db w)) /\
    ticks w' = ticks w.
Proof.
  intros Hrow Hpk.
  assert (Hview :
    view_destroy key (with_depth (S (depth w)) w) =
      if bool_decide (status r ∈ [COMPLETED; PROCESSING])
      then (Ok (inr (mkResponse HTTP_400_BAD_REQUEST
                       (BodyDetail (CannotDelete (status r))))),
            with_depth (S (depth w)) w)
      else (Ok (inr (mkResponse HTTP_204_NO_CONTENT BodyEmpty)),
            with_db (delete key (db w)) (with_depth (S (depth w)) w))).
  { unfold view_destroy.
    rewrite (view_bind_found key _ (with_depth (S (depth w)) w) r Hrow).
    case_bool_decide; unfold respond, delete_instance; unfold_monad;
      [reflexivity|]. cbn. by rewrite Hpk. }
  case_bool_decide.
  - eexists. split; [apply dispatch_ok, Hview|].
    match goal with |- db (commit ?w0) = _ /\ _ =>
      destruct (commit_frame w0) as (-> & -> & _) end. done.
  - eexists. split; [apply dispatch_ok, Hview|].
    match goal with |- db (commit ?w0) = _ /\ _ =>
      destruct (commit_frame w0) as (-> & -> & _) end. done.
Qed.

(** Deleting the pending request 1. *)
Lemma destroy_spares_processing_and_completed_witness :
  exists w',
    dispatch (view_destroy 1) world1
    = (Ok (if bool_decide (status request0 ∈ [COMPLETED; PROCESSING])
           then mkResponse HTTP_400_BAD_REQUEST
                  (BodyDetail (CannotDelete (status request0)))
           else mkResponse HTTP_204_NO_CONTENT BodyEmpty), w') /\
    db w' = (if bool_decide (status request0 ∈ [COMPLETED; PROCESSING])
             then db world1 else delete 1 (db world1)) /\
    ticks w' = ticks world1.
Proof.
  apply (destroy_spares_processing_and_completed 1 world1 request0);
    reflexivity.
Defined.

(** X7.  Every detail route (the four status actions, [destroy] and
    [partial_update]) called for a key that has no row answers 404 and
    leaves the whole world as it was: no row, no log record, no clock
    reading, no callback, no queue entry. *)
Theorem missing_request_is_404
    (key : Z) (w : World) (a : Action) (data : PatchData) :
  db w !! key = None ->
  let not_found := mkResponse HTTP_404_NOT_FOUND (BodyDetail NotFoundDetail) in
  dispatch (view_action a key) w = (Ok not_found, w) /\
  dispatch (view_destroy key) w = (Ok not_found, w) /\
  dispatch (view_partial_update data key) w = (Ok not_found, w).
Proof.
  intros Hrow not_found.
  assert (Hdb : db (with_depth (S (depth w)) w) !! key = None) by done.
  assert (H404 : forall view : View,
            view (with_depth (S (depth w)) w)
            = (Ok (inl Http404), with_depth (S (depth w)) w) ->
            dispatch view w = (Ok not_found, w)).
  { intros view Hview.
    rewrite (dispatch_api_exception view w Http404 _ Hview).
    by rewrite rollback_entered. }
  repeat split; apply H404.
  - destruct a; apply view_bind_missing; exact Hdb.
  - apply view_bind_missing; exact Hdb.
  - apply view_bind_missing; exact Hdb.
Qed.

(** The routes for the key 7, which the store never held. *)
Lemma missing_request_is_404_witness :
  let not_found := mkResponse HTTP_404_NOT_FOUND (BodyDetail NotFoundDetail) in
  dispatch (view_action ActApprove 7) world1 = (Ok not_found, world1) /\
  dispatch (view_destroy 7) world1 = (Ok not_found, world1) /\
  dispatch (view_partial_update (mkPatchData (Some CANCELLED) None None) 7)
    world1 = (Ok not_found, world1).
Proof.
  apply (missing_request_is_404 7 world1 ActApprove
           (mkPatchData (Some CANCELLED) None None)).
  reflexivity.
Defined.

(** *** PATCH *)

(** X8.  The dictionary of [validate_status] is the transition graph: a
    PATCH may name a new status exactly when the graph has an edge from the
    current status to it (so never the current status itself, and nothing
    from [REJECTED], [COMPLETED] or [CANCELLED]); the refusal is "final"
    from those three states and "cannot change" otherwise. *)
Theorem validate_status_accepts_exactly_the_edges
    (instance : PaymentRequest) (value : Status) :
  validate_status instance value =
    if edge (status instance) value then inr value
    else inl (if terminal (status instance) then StatusIsFinal
              else TransitionRefused (status instance) value).
Proof.
  unfold validate_status.
  destruct (status instance), value; reflexivity.
Qed.

Lemma save_all_found self w row :
  db w !! pk self = Some row ->
  save_all self w =
    (Ok (set_updated_at (clock w (ticks w)) self),
     with_db (<[pk self := set_updated_at (clock w (ticks w)) self]> (db w))
       (with_ticks (S (ticks w)) w)).
Proof.
  intros Hrow. unfold save_all. unfold_monad. unfold timezone_now. cbn.
  rewrite Hrow. rewrite bool_decide_eq_true_2 by by eexists.
  reflexivity.
Qed.

(** The instant [serializer_update] stamps into [processed_at], if any. *)
Lemma serializer_update_found instance validated_data w row :
  db w !! pk instance = Some row ->
  let stamps :=
    bool_decide (p_status validated_data = Some COMPLETED)
    && bool_decide (Some (status instance) ≠ p_status validated_data) in
  let processed := if stamps then Some (clock w (ticks w)) else None in
  let n := if stamps then S (ticks w) else ticks w in
  let saved :=
    set_updated_at (clock w n)
      (assign_validated validated_data processed instance) in
  serializer_update instance validated_data w =
    (Ok saved, with_db (<[pk instance := saved]> (db w)) (with_ticks (S n) w)).
Proof.
  intros Hrow. cbn zeta. unfold serializer_update. unfold_monad.
  assert (Hpk : forall p, pk (assign_validated validated_data p instance)
                          = pk instance).
  { intros p. unfold assign_validated.
    destruct (p_status validated_data), (p_rejection_reason validated_data),
      (p_description validated_data), p; reflexivity. }
  destruct (bool_decide (p_status validated_data = Some COMPLETED)
            && bool_decide (Some (status instance)
                            ≠ p_status validated_data));
    unfold timezone_now; cbn -[assign_validated save_all].
  - rewrite (save_all_found _ _ row) by (rewrite Hpk; exact Hrow).
    cbn -[assign_validated]. rewrite Hpk. reflexivity.
  - rewrite (save_all_found _ _ row) by (rewrite Hpk; exact Hrow).
    cbn -[assign_validated]. rewrite Hpk. reflexivity.
Qed.

Lemma validate_returns_attrs instance attrs validated :
  validate instance attrs = inr validated -> validated = attrs.
Proof.
  unfold validate. case_bool_decide; [|congruence].
  destruct (falsy _ && falsy _); congruence.
Qed.

Lemma is_valid_returns_data instance data validated :
  is_valid instance data = inr validated -> validated = data.
Proof.
  unfold is_valid.
  destruct (p_status data) as [v|];
    [destruct (validate_status instance v); [discriminate|]|];
    destruct (validate instance data) eqn:Hv; try discriminate;
    intros [= <-]; by apply validate_returns_attrs in Hv.
Qed.

Lemma validate_status_edge instance value :
  (exists v, validate_status instance value = inr v) <->
  edge (status instance) value = true.
Proof.
  unfold validate_status.
  destruct (status instance), value; cbn; split;
    (reflexivity || discriminate || eauto || by intros [? [=]]).
Qed.

Lemma is_valid_edge instance data validated v :
  is_valid instance data = inr validated ->
  p_status data = Some v ->
  edge (status instance) v = true.
Proof.
  unfold is_valid. intros Hvalid Hst. rewrite Hst in Hvalid.
  apply validate_status_edge.
  destruct (validate_status instance v); [discriminate|eauto].
Qed.

Lemma is_valid_reason instance data validated :
  is_valid instance data = inr validated ->
  p_status data = Some REJECTED ->
  (default (rejection_reason instance) (p_rejection_reason data)
   = EmptyString <->
   p_rejection_reason data = Some EmptyString).
Proof.
  unfold is_valid. intros Hvalid Hst. rewrite Hst in Hvalid.
  destruct (validate_status instance REJECTED); [discriminate|].
  unfold validate in Hvalid. rewrite bool_decide_eq_true_2 in Hvalid by done.
  destruct (p_rejection_reason data) as [txt|]; cbn in *.
  - split; congruence.
  - case_bool_decide; [discriminate|]. split; [done|discriminate].
Qed.

Lemma view_partial_update_valid data key w r :
  db w !! key = Some r ->
  pk r = key ->
  is_valid r data = inr data ->
  let stamps :=
    bool_decide (p_status data = Some COMPLETED)
    && bool_decide (Some (status r) ≠ p_status data) in
  let processed := if stamps then Some (clock w (ticks w)) else None in
  let n := if stamps then S (ticks w) else ticks w in
  let saved := set_updated_at (clock w n) (assign_validated data processed r) in
  view_partial_update data key w =
    (Ok (inr (mkResponse HTTP_200_OK (BodyRequest saved))),
     with_db (<[key := saved]> (db w)) (with_ticks (S n) w)).
Proof.
  intros Hrow Hpk Hvalid. cbn zeta. unfold view_partial_update.
  rewrite (view_bind_found key _ w r Hrow).
  unfold view_bind at 1. unfold_monad. rewrite Hvalid.
  rewrite (serializer_update_found r data w r) by (by rewrite Hpk).
  cbn zeta. rewrite Hpk. reflexivity.
Qed.

Lemma view_partial_update_invalid data key w r e :
  db w !! key = Some r ->
  is_valid r data = inl e ->
  view_partial_update data key w = (Ok (inl e), w).
Proof.
  intros Hrow Hvalid. unfold view_partial_update.
  rewrite (view_bind_found key _ w r Hrow).
  unfold view_bind. unfold_monad. by rewrite Hvalid.
Qed.

Lemma assign_validated_fields data processed r :
  let r' := assign_validated data processed r in
  same_fixed r r' /\
  status r' = default (status r) (p_status data) /\
  rejection_reason r'
  = default (rejection_reason r) (p_rejection_reason data) /\
  description r' = default (description r) (p_description data) /\
  processed_at r' = match processed with
                    | Some t => Some t
                    | None => processed_at r
                    end.
Proof.
  unfold assign_validated, same_fixed.
  destruct (p_status data), (p_rejection_reason data), (p_description data),
    processed; cbn; done.
Qed.

Lemma commit_no_hooks w :
  hooks w = [] -> queue (commit w) = queue w /\ hooks (commit w) = [].
Proof.
  intros H. unfold commit. destruct (depth w) as [|[|n]]; cbn;
    rewrite ?H; done.
Qed.

Lemma dispatch_partial_update_valid data key w r :
  db w !! key = Some r ->
  pk r = key ->
  is_valid r data = inr data ->
  exists instance w',
    dispatch (view_partial_update data key) w
    = (Ok (mkResponse HTTP_200_OK (BodyRequest instance)), w') /\
    db w' = <[key := instance]> (db w) /\
    (hooks w = [] -> queue w' = queue w) /\
    same_fixed r instance /\
    status instance = default (status r) (p_status data) /\
    rejection_reason instance
    = default (rejection_reason r) (p_rejection_reason data) /\
    description instance = default (description r) (p_description data) /\
    processed_at instance
    = if bool_decide (p_status data = Some COMPLETED)
      then Some (clock w (ticks w)) else processed_at r.
Proof.
  intros Hrow Hpk Hvalid.
  pose proof (view_partial_update_valid data key
                (with_depth (S (depth w)) w) r Hrow Hpk Hvalid) as Hview.
  cbn zeta in Hview.
  eexists _, _. split; [apply dispatch_ok, Hview|].
  match goal with |- db (commit ?w0) = _ /\ _ =>
    destruct (commit_frame w0) as (-> & _ & _);
    pose proof (commit_no_hooks w0) as Hq end.
  split; [reflexivity|]. split; [intros Hh; by apply Hq|].
  match goal with |- same_fixed r (set_updated_at _ (assign_validated _ ?p _))
                     /\ _ =>
    destruct (assign_validated_fields data p r)
      as (Hfixed & Hs & Hr & Hd & Hp) end.
  split; [exact Hfixed|]. split; [exact Hs|]. split; [exact Hr|].
  split; [exact Hd|].
  change (processed_at (set_updated_at ?t ?x)) with (processed_at x).
  rewrite Hp.
  destruct (decide (p_status data = Some COMPLETED)) as [Hc|Hc].
  - assert (Hne : Some (status r) ≠ p_status data).
    { intros Heq. rewrite Hc in Heq. injection Heq as Heq.
      pose proof (is_valid_edge r data data COMPLETED Hvalid Hc) as Hedge.
      rewrite Heq in Hedge. discriminate. }
    rewrite (bool_decide_eq_true_2 _ Hc), (bool_decide_eq_true_2 _ Hne).
    done.
  - rewrite !(bool_decide_eq_false_2 (p_status data = Some COMPLETED))
      by done. done.
Qed.

(** X10.  [partial_update] on an existing request.  When the body fails
    the serializer's checks, the answer is the 400 of that error and the
    whole world is as before.  Otherwise the answer is 200 with the request
    as it is now stored: [status], [rejection_reason] and [description] are
    the body's where the body gives them and the old ones where it does
    not; [processed_at] is stamped with the current time exactly when the
    body names [COMPLETED]; the key, amount, currency, recipient columns and
    [created_at] are unchanged; no worker invocation is queued. *)
Theorem partial_update_writes_validated_fields
    (data : PatchData) (key : Z) (w : World) (r : PaymentRequest) :
  db w !! key = Some r ->
  pk r = key ->
  hooks w = [] ->
  match is_valid r data with
  | inl e =>
      dispatch (view_partial_update data key) w = (Ok (exception_handler e), w)
  | inr _ =>
      exists instance w',
        dispatch (view_partial_update data key) w
        = (Ok (mkResponse HTTP_200_OK (BodyRequest instance)), w') /\
        db w' = <[key := instance]> (db w) /\
        queue w' = queue w /\
        same_fixed r instance /\
        status instance = default (status r) (p_status data) /\
        rejection_reason instance
        = default (rejection_reason r) (p_rejection_reason data) /\
        description instance
        = default (description r) (p_description data) /\
        processed_at instance
        = if bool_decide (p_status data = Some COMPLETED)
          then Some (clock w (ticks w)) else processed_at r
  end.
Proof.
  intros Hrow Hpk Hhooks.
  destruct (is_valid r data) as [e|validated] eqn:Hvalid.
  - erewrite dispatch_api_exception
      by (apply (view_partial_update_invalid data key _ r e); done).
    by rewrite rollback_entered.
  - pose proof (is_valid_returns_data r data validated Hvalid) as ->.
    destruct (dispatch_partial_update_valid data key w r Hrow Hpk Hvalid)
      as (instance & w' & Hd & Hdb & Hq & Hrest).
    exists instance, w'. split; [done|]. split; [done|]. split; [auto|done].
Qed.

(** A PATCH that cancels the pending request 1 and rewrites its
    description. *)
Lemma partial_update_writes_validated_fields_witness :
  let data := mkPatchData (Some CANCELLED) None (Some "withdrawn") in
  match is_valid request0 data with
  | inl e =>
      dispatch (view_partial_update data 1) world1
      = (Ok (exception_handler e), world1)
  | inr _ =>
      exists instance w',
        dispatch (view_partial_update data 1) world1
        = (Ok (mkResponse HTTP_200_OK (BodyRequest instance)), w') /\
        db w' = <[1 := instance]> (db world1) /\
        queue w' = queue world1 /\
        same_fixed request0 instance /\
        status instance = default (status request0) (p_status data) /\
        rejection_reason instance
        = default (rejection_reason request0) (p_rejection_reason data) /\
        description instance
        = default (description request0) (p_description data) /\
        processed_at instance
        = if bool_decide (p_status data = Some COMPLETED)
          then Some (clock world1 (ticks world1))
          else processed_at request0
  end.
Proof.
  apply (partial_update_writes_validated_fields
           (mkPatchData (Some CANCELLED) None (Some "withdrawn")) 1 world1
           request0); reflexivity.
Defined.

(** X11.  When a PATCH that names a new status is answered with 200, the
    step from the old status to the new one is an edge of the transition
    graph and the stored status is the new one; if the new status is
    [COMPLETED], [processed_at] is set; if it is [REJECTED], the stored
    reason is empty in one case only: the body itself carried a blank
    [rejection_reason]. *)
Theorem patch_status_change_keeps_invariants
    (data : PatchData) (key : Z) (w w' : World)
    (r instance : PaymentRequest) (v : Status) :
  db w !! key = Some r ->
  pk r = key ->
  dispatch (view_partial_update data key) w
  = (Ok (mkResponse HTTP_200_OK (BodyRequest instance)), w') ->
  p_status data = Some v ->
  edge (status r) v = true /\
  status instance = v /\
  db w' !! key = Some instance /\
  (v = COMPLETED -> is_Some (processed_at instance)) /\
  (v = REJECTED ->
   (rejection_reason instance = EmptyString <->
    p_rejection_reason data = Some EmptyString)).
Proof.
  intros Hrow Hpk Hcall Hst.
  destruct (is_valid r data) as [e|validated] eqn:Hvalid.
  - erewrite dispatch_api_exception in Hcall
      by (apply (view_partial_update_invalid data key _ r e); done).
    destruct e; discriminate.
  - pose proof (is_valid_returns_data r data validated Hvalid) as ->.
    destruct (dispatch_partial_update_valid data key w r Hrow Hpk Hvalid)
      as (instance' & w'' & Hd & Hdb & _ & _ & Hs & Hr & _ & Hp).
    rewrite Hd in Hcall. injection Hcall as <- <-.
    rewrite Hst in Hs, Hp. cbn in Hs.
    split; [by eapply is_valid_edge|]. split; [done|].
    split; [by rewrite Hdb, lookup_insert_eq|]. split.
    + intros ->. rewrite bool_decide_eq_true_2 in Hp by done.
      rewrite Hp. by eexists.
    + intros ->. rewrite Hr. by eapply is_valid_reason.
Qed.

(** A PATCH that rejects the pending request 1 with a reason. *)
Lemma patch_status_change_keeps_invariants_witness :
  edge (status request0) REJECTED = true /\
  status request_rejected = REJECTED /\
  db (with_ticks 3 (with_db {[ 1 := request_rejected ]} world1)) !! 1
  = Some request_rejected /\
  (REJECTED = COMPLETED -> is_Some (processed_at request_rejected)) /\
  (REJECTED = REJECTED ->
   (rejection_reason request_rejected = EmptyString <->
    Some "duplicate" = Some EmptyString)).
Proof.
  apply (patch_status_change_keeps_invariants
           (mkPatchData (Some REJECTED) (Some "duplicate") None) 1 world1
           (with_ticks 3 (with_db {[ 1 := request_rejected ]} world1))
           request0 request_rejected REJECTED); reflexivity.
Defined.

(** X9.  The status changes that approve, reject, complete and cancel can
    make are exactly six: [PENDING] to [APPROVED], [REJECTED] or
    [CANCELLED]; [PROCESSING] to [REJECTED] or [CANCELLED]; [APPROVED] to
    [COMPLETED].  Each of them happens for some call, and no call makes any
    other change; in particular none makes the graph's edges [PENDING] to
    [PROCESSING], [PROCESSING] to [APPROVED] and [APPROVED] to
    [CANCELLED]. *)
Theorem operations_realise_six_edges (a b : Status) :
  (exists op self w self' w',
     status self = a /\ apply_op op self w = (Ok self', w') /\
     status self' = b /\ a <> b)
  <->
  (a, b) ∈ [(PENDING, APPROVED); (PENDING, REJECTED); (PENDING, CANCELLED);
            (PROCESSING, REJECTED); (PROCESSING, CANCELLED);
            (APPROVED, COMPLETED)].
Proof.
  split.
  - intros (op & self & w & self' & w' & Ha & Hcall & Hb & Hne).
    destruct (apply_op_cases op self w)
      as [[Hnoop _]|[[w0 Hraise]|(row & _ & Hin & Hfire)]].
    + rewrite Hnoop in Hcall. injection Hcall as <- <-. congruence.
    + rewrite Hraise in Hcall. discriminate.
    + rewrite Hfire in Hcall. injection Hcall as <- <-.
      subst a b. destruct op; cbn in *;
        rewrite ?elem_of_cons, ?elem_of_nil in Hin;
        destruct Hin as [->|Hin]; try destruct Hin as [->|Hin];
        try done; rewrite !elem_of_cons; auto 10.
  - intros Hab.
    assert (Hop : exists op, a ∈ legal_sources op /\ target op = b /\ a <> b).
    { rewrite !elem_of_cons, elem_of_nil in Hab.
      destruct Hab as [[= -> ->]|[[= -> ->]|[[= -> ->]|[[= -> ->]|
                      [[= -> ->]|[[= -> ->]|[]]]]]]];
        [exists OpApprove|exists (OpReject EmptyString)|exists OpCancel
        |exists (OpReject EmptyString)|exists OpCancel|exists OpComplete];
        (split; [mem|done]). }
    destruct Hop as (op & Hin & Htarget & Hne).
    set (self := set_status a request0).
    exists op, self, world1.
    eexists _, _. split; [reflexivity|]. split.
    + apply (apply_op_fires op self world1 request0); [exact Hin|reflexivity].
    + split; [|exact Hne]. rewrite <- Htarget. by destruct op.
Qed.

(** *** Creation through the API *)

(** X12.  [perform_create] inside the request's transaction, in a store
    whose next id is free: whatever status the validated data carry, the
    stored request is [PENDING], holds the data's other fields, has no
    [processed_at] and an empty [rejection_reason]; and once the
    transaction has committed, the queue holds exactly one more entry: the
    worker invocation for the new id with countdown 2. *)
Theorem perform_create_stores_pending_and_schedules
    (validated_data : NewRequest) (w : World) :
  depth w = O -> hooks w = [] -> db w !! next_pk w = None ->
  exists instance w',
    atomic (perform_create validated_data) w = (Ok instance, w') /\
    db w' = <[next_pk w := instance]> (db w) /\
    pk instance = next_pk w /\
    status instance = PENDING /\
    amount instance = n_amount validated_data /\
    currency instance = n_currency validated_data /\
    recipient_name instance = n_recipient_name validated_data /\
    recipient_account instance = n_recipient_account validated_data /\
    recipient_bank instance = n_recipient_bank validated_data /\
    recipient_bank_code instance = n_recipient_bank_code validated_data /\
    description instance = n_description validated_data /\
    processed_at instance = None /\
    rejection_reason instance = EmptyString /\
    queue w' = (queue w ++ [mkDelivery (next_pk w) 2])%list /\
    hooks w' = [].
Proof.
  intros Hdepth Hhooks Hfresh.
  unfold perform_create, serializer_create, atomic, objects_create,
    trigger_payment_processing.
  unfold_monad. unfold timezone_now, on_commit, logger, commit. cbn.
  rewrite Hfresh, Hdepth. cbn.
  rewrite !bool_decide_eq_true_2 by done. cbn. rewrite Hhooks. cbn.
  eexists _, _. split; [reflexivity|]. cbn. done.
Qed.

(** A creation whose data ask for [APPROVED]. *)
Lemma perform_create_stores_pending_and_schedules_witness :
  let validated_data :=
    mkNewRequest 100000 RUB "Test User" "1234567890" EmptyString
      EmptyString APPROVED "Test payment" in
  exists instance w',
    atomic (perform_create validated_data) world0 = (Ok instance, w') /\
    db w' = <[1 := instance]> (db world0) /\
    pk instance = 1 /\
    status instance = PENDING /\
    amount instance = 100000 /\
    currency instance = RUB /\
    recipient_name instance = "Test User" /\
    recipient_account instance = "1234567890" /\
    recipient_bank instance = EmptyString /\
    recipient_bank_code instance = EmptyString /\
    description instance = "Test payment" /\
    processed_at instance = None /\
    rejection_reason instance = EmptyString /\
    queue w' = [mkDelivery 1 2] /\
    hooks w' = [].
Proof.
  apply (perform_create_stores_pending_and_schedules
           (mkNewRequest 100000 RUB "Test User" "1234567890" EmptyString
              EmptyString APPROVED "Test payment") world0); reflexivity.
Defined.

(** *** The account check *)

Section AccountFacts.
Context {Char : Type} (char_isdigit char_isspace : Char -> bool).
Hypothesis digits_are_not_spaces :
  forall c, char_isdigit c = true -> char_isspace c = false.

Lemma lstrip_digits (s : list Char) :
  forallb char_isdigit s = true -> lstrip char_isspace s = s.
Proof.
  destruct s as [|c s]; [done|]. cbn. intros [Hc _]%andb_prop.
  by rewrite (digits_are_not_spaces c Hc).
Qed.

Lemma forallb_rev (s : list Char) :
  forallb char_isdigit (rev s) = forallb char_isdigit s.
Proof.
  induction s as [|c s IH]; [done|]. cbn.
  rewrite forallb_app, IH. cbn. rewrite andb_true_r. apply andb_comm.
Qed.

Lemma strip_digits (s : list Char) :
  forallb char_isdigit s = true -> strip char_isspace s = s.
Proof.
  intros H. unfold strip. rewrite (lstrip_digits s H).
  rewrite lstrip_digits by by rewrite forallb_rev.
  apply rev_involutive.
Qed.

Lemma strip_nil : strip char_isspace [] = [].
Proof. reflexivity. Qed.
End AccountFacts.

(** X13.  Whatever the alphabet, as long as no digit is a whitespace
    character: [validate_recipient_account] accepts exactly the texts for
    which [isdigit] holds (non-empty, digits only) and returns them as they
    came, so the final [strip] never changes an accepted value; a text that
    is empty or all whitespace is refused as empty, any other as "digits
    only". *)
Theorem validate_recipient_account_accepts_digit_texts
    {Char : Type} (char_isdigit char_isspace : Char -> bool)
    (value : list Char) :
  (forall c, char_isdigit c = true -> char_isspace c = false) ->
  validate_recipient_account char_isdigit char_isspace value =
    if isdigit char_isdigit value then inr value
    else inl (if empty (strip char_isspace value) then AccountEmpty
              else AccountNotDigits).
Proof.
  intros Hclass. unfold validate_recipient_account.
  destruct value as [|c value]; [reflexivity|].
  destruct (isdigit char_isdigit (c :: value)) eqn:Hdigit.
  - rewrite (strip_digits char_isdigit char_isspace Hclass (c :: value) Hdigit).
    reflexivity.
  - cbn [empty orb negb]. by destruct (empty (strip char_isspace (c :: value))).
Qed.

(** The account number of the API test. *)
Lemma validate_recipient_account_accepts_digit_texts_witness :
  validate_recipient_account ascii_isdigit ascii_isspace
    (list_ascii_of_string "1234567890")
  = if isdigit ascii_isdigit (list_ascii_of_string "1234567890")
    then inr (list_ascii_of_string "1234567890")
    else inl (if empty (strip ascii_isspace
                          (list_ascii_of_string "1234567890"))
              then AccountEmpty else AccountNotDigits).
Proof.
  apply (validate_recipient_account_accepts_digit_texts
           ascii_isdigit ascii_isspace (list_ascii_of_string "1234567890")).
  intros c. destruct c as [[] [] [] [] [] [] [] []]; vm_compute;
    intros H; (reflexivity || discriminate H).
Defined.

(** ** The admin actions *)

Lemma bulk_action_loop b queryset :
  bulk_action b queryset = bulk_loop (bulk_op b) 0 queryset.
Proof.
  destruct b; cbn; unfold approve_requests, reject_requests,
    complete_requests; generalize 0%nat.
  - induction queryset as [|r rest IH]; intros n; [done|]. cbn.
    rewrite !IH.
    by rewrite (bool_decide_ext (status r = PENDING)
                  (status r ∈ [PENDING])) by mem.
  - induction queryset as [|r rest IH]; intros n; [done|]. cbn.
    by rewrite !IH.
  - induction queryset as [|r rest IH]; intros n; [done|]. cbn.
    rewrite !IH.
    by rewrite (bool_decide_ext (status r = APPROVED)
                  (status r ∈ [APPROVED])) by mem.
Qed.

Lemma bulk_loop_spec op queryset : forall updated w,
  NoDup (pk <$> queryset) ->
  (forall r, r ∈ queryset -> db w !! pk r = Some r) ->
  exists w',
    bulk_loop op updated queryset w
    = (Ok (updated
           + length (filter (fun r => status r ∈ legal_sources op)
                       queryset))%nat, w') /\
    (forall r, r ∈ queryset -> status r ∈ legal_sources op ->
       exists t1 t2, db w' !! pk r = Some (fired op t1 t2 r)) /\
    (forall r, r ∈ queryset -> status r ∉ legal_sources op ->
       db w' !! pk r = Some r) /\
    (forall k, k ∉ pk <$> queryset -> db w' !! k = db w !! k).
Proof.
  induction queryset as [|r rest IH]; intros updated w Hnodup Hrows.
  - exists w. cbn. rewrite Nat.add_0_r.
    split; [done|]. split; [by intros ? ?%elem_of_nil|].
    split; [by intros ? ?%elem_of_nil|done].
  - rewrite fmap_cons in Hnodup. apply NoDup_cons in Hnodup as [Hnotin Hnodup].
    cbn [bulk_loop].
    destruct (decide (status r ∈ legal_sources op)) as [Hin|Hout].
    + rewrite bool_decide_eq_true_2 by done. unfold_monad.
      rewrite (apply_op_fires op r w r Hin) by (apply Hrows; left).
      set (w1 := with_db _ _).
      destruct (IH (S updated) w1 Hnodup)
        as (w' & Hrun & Hdone & Hkept & Hframe).
      { intros r' Hr'. subst w1. cbn. rewrite lookup_insert_ne.
        - apply Hrows. by right.
        - intros Heq. apply Hnotin. rewrite Heq.
          by apply list_elem_of_fmap_2. }
      exists w'. rewrite Hrun, filter_cons_True by done. cbn [length].
      split; [f_equal; f_equal; lia|]. split; [|split].
      * intros r' [->|Hr']%elem_of_cons Hlegal; [|by apply Hdone].
        eexists _, _. rewrite Hframe by done. subst w1. cbn.
        by rewrite lookup_insert_eq.
      * intros r' [->|Hr']%elem_of_cons Hillegal; [done|by apply Hkept].
      * intros k Hk. rewrite fmap_cons, not_elem_of_cons in Hk.
        destruct Hk as [Hne Hk]. rewrite Hframe by done. subst w1. cbn.
        by rewrite lookup_insert_ne.
    + rewrite bool_decide_eq_false_2 by done.
      destruct (IH updated w Hnodup) as (w' & Hrun & Hdone & Hkept & Hframe).
      { intros r' Hr'. apply Hrows. by right. }
      exists w'. rewrite Hrun, filter_cons_False by done.
      split; [done|]. split; [|split].
      * intros r' [->|Hr']%elem_of_cons Hlegal; [done|by apply Hdone].
      * intros r' [->|Hr']%elem_of_cons Hillegal; [|by apply Hkept].
        rewrite Hframe by done. apply Hrows. by left.
      * intros k Hk. rewrite fmap_cons, not_elem_of_cons in Hk.
        destruct Hk as [Hne Hk]. by rewrite Hframe.
Qed.

(** X14.  A bulk action of the admin (approve, reject, complete) over a
    selection of distinct requests, each as it is stored: the count it
    reports is the number of selected requests whose status is a legal
    source of its operation; each of those rows now has the operation's
    target status, with nothing but the operation's designated columns
    changed (a rejected row holds the admin's reason); every other selected
    row and every row outside the selection is as it was. *)
Theorem bulk_action_updates_the_legal_rows
    (b : Bulk) (queryset : list PaymentRequest) (w : World) :
  NoDup (pk <$> queryset) ->
  (forall r, r ∈ queryset -> db w !! pk r = Some r) ->
  exists w',
    bulk_action b queryset w
    = (Ok (length (filter (fun r => status r ∈ legal_sources (bulk_op b))
                     queryset)), w') /\
    (forall r, r ∈ queryset -> status r ∈ legal_sources (bulk_op b) ->
       exists row,
         db w' !! pk r = Some row /\
         status row = target (bulk_op b) /\
         same_except (designated (bulk_op b)) r row /\
         (b = BulkReject -> rejection_reason row = admin_reason)) /\
    (forall r, r ∈ queryset -> status r ∉ legal_sources (bulk_op b) ->
       db w' !! pk r = Some r) /\
    (forall k, k ∉ pk <$> queryset -> db w' !! k = db w !! k).
Proof.
  intros Hnodup Hrows. rewrite bulk_action_loop.
  destruct (bulk_loop_spec (bulk_op b) queryset 0%nat w Hnodup Hrows)
    as (w' & Hrun & Hdone & Hkept & Hframe).
  exists w'. split; [exact Hrun|]. split; [|done].
  intros r Hr Hlegal. destruct (Hdone r Hr Hlegal) as (t1 & t2 & Hrow).
  eexists. split; [exact Hrow|].
  split; [by destruct b|]. split; [apply fired_same_except|].
  by intros ->.
Qed.

(** The reject action over the pending request 1. *)
Lemma bulk_action_updates_the_legal_rows_witness :
  exists w',
    bulk_action BulkReject [request0] world1
    = (Ok (length (filter (fun r => status r ∈ legal_sources
                                                 (bulk_op BulkReject))
                     [request0])), w') /\
    (forall r, r ∈ [request0] ->
       status r ∈ legal_sources (bulk_op BulkReject) ->
       exists row,
         db w' !! pk r = Some row /\
         status row = target (bulk_op BulkReject) /\
         same_except (designated (bulk_op BulkReject)) r row /\
         (BulkReject = BulkReject -> rejection_reason row = admin_reason)) /\
    (forall r, r ∈ [request0] ->
       status r ∉ legal_sources (bulk_op BulkReject) ->
       db w' !! pk r = Some r) /\
    (forall k, k ∉ pk <$> [request0] -> db w' !! k = db world1 !! k).
Proof.
  apply (bulk_action_updates_the_legal_rows BulkReject [request0] world1).
  - apply NoDup_singleton.
  - intros r Hr. apply list_elem_of_singleton in Hr. rewrite Hr.
    reflexivity.
Defined.

(** ** The worker and the API together *)

Lemma process_skip sim request_id w r :
  db w !! request_id = Some r ->
  status r <> PENDING ->
  exists w',
    process_payment_request sim request_id w = (Ok (Skipped (status r)), w') /\
    db w' = db w.
Proof.
  intros Hrow Hst.
  unfold process_payment_request, lock_phase, try_except, atomic,
    select_for_update_get, logger.
  unfold_monad. cbn. rewrite Hrow.
  rewrite bool_decide_eq_true_2 by done. cbn.
  eexists. split; [reflexivity|].
  destruct (depth w); cbn; [|done].
  match goal with |- db (foldl run_hook ?w0 ?hs) = _ =>
    by destruct (run_hooks_frame hs w0) as (-> & _ & _) end.
Qed.

(** X15.  Once the lock phase of one run has taken a pending request (the
    row is committed as [PROCESSING]), any further run for the same id,
    whatever its simulated outcome, returns ["Skipped: Status is
    processing"] and leaves the table as the first run's lock phase left
    it. *)
Theorem run_after_lock_phase_skips
    (sim : Simulation) (request_id : Z) (w : World) (r : PaymentRequest) :
  db w !! request_id = Some r ->
  status r = PENDING ->
  pk r = request_id ->
  exists w1 w2 row,
    lock_phase request_id w = (Ok None, w1) /\
    db w1 !! request_id = Some row /\ status row = PROCESSING /\
    process_payment_request sim request_id w1
    = (Ok (Skipped PROCESSING), w2) /\
    db w2 = db w1.
Proof.
  intros Hrow Hst Hpk.
  destruct (lock_phase_pending request_id w r Hrow Hst Hpk)
    as (w1 & Hlock & Hdb1 & _).
  assert (Hrow1 : db w1 !! request_id
                  = Some (set_updated_at (clock w (ticks w))
                            (set_status PROCESSING r)))
    by (by rewrite Hdb1, lookup_insert_eq).
  destruct (process_skip sim request_id w1 _ Hrow1) as (w2 & Hrun & Hdb2);
    [done|].
  exists w1, w2. eexists. repeat split; [exact Hlock|exact Hrow1|..]; done.
Qed.

(** A second delivery for the pending request 1. *)
Lemma run_after_lock_phase_skips_witness :
  exists w1 w2 row,
    lock_phase 1 world1 = (Ok None, w1) /\
    db w1 !! 1 = Some row /\ status row = PROCESSING /\
    process_payment_request sim_quiet_failure 1 w1
    = (Ok (Skipped PROCESSING), w2) /\
    db w2 = db w1.
Proof.
  apply (run_after_lock_phase_skips sim_quiet_failure 1 world1 request0);
    reflexivity.
Defined.

Lemma dispatch_action_performs a key w r :
  db w !! key = Some r ->
  pk r = key ->
  status r ∈ legal_sources (action_op a) ->
  exists w',
    dispatch (view_action a key) w
    = (Ok (mkResponse HTTP_200_OK
             (BodyRequest (fired (action_op a) (clock w (ticks w))
                             (clock w (S (ticks w))) r))), w') /\
    db w' = <[key := fired (action_op a) (clock w (ticks w))
                       (clock w (S (ticks w))) r]> (db w).
Proof.
  intros Hrow Hpk Hin.
  pose proof (view_action_performs a key (with_depth (S (depth w)) w) r
                Hrow Hpk Hin) as Hview.
  cbn zeta in Hview. eexists. split.
  - apply dispatch_ok. exact Hview.
  - match goal with |- db (commit ?w0) = _ =>
      by destruct (commit_frame w0) as (-> & _ & _) end.
Qed.

(** X16.  A user cancels a pending request through the API before the
    worker runs: the cancel is answered with 200 and the cancelled request;
    the run that comes later returns ["Skipped: Status is cancelled"] and
    the row stays the cancelled one. *)
Theorem cancel_before_worker_wins
    (sim : Simulation) (request_id : Z) (w : World) (r : PaymentRequest) :
  db w !! request_id = Some r ->
  status r = PENDING ->
  pk r = request_id ->
  exists instance w1 w2,
    dispatch (view_cancel request_id) w
    = (Ok (mkResponse HTTP_200_OK (BodyRequest instance)), w1) /\
    status instance = CANCELLED /\
    process_payment_request sim request_id w1
    = (Ok (Skipped CANCELLED), w2) /\
    db w2 !! request_id = Some instance.
Proof.
  intros Hrow Hst Hpk.
  destruct (dispatch_action_performs ActCancel request_id w r Hrow Hpk)
    as (w1 & Hcancel & Hdb1); [cbn; rewrite Hst; mem|].
  cbn [action_op view_action] in Hcancel.
  set (instance := fired OpCancel _ _ r) in *.
  assert (Hrow1 : db w1 !! request_id = Some instance)
    by (by rewrite Hdb1, lookup_insert_eq).
  destruct (process_skip sim request_id w1 instance Hrow1)
    as (w2 & Hrun & Hdb2); [done|].
  exists instance, w1, w2. split; [exact Hcancel|]. split; [done|].
  split; [exact Hrun|]. by rewrite Hdb2.
Qed.

(** The cancel of the pending request 1, then its run. *)
Lemma cancel_before_worker_wins_witness :
  exists instance w1 w2,
    dispatch (view_cancel 1) world1
    = (Ok (mkResponse HTTP_200_OK (BodyRequest instance)), w1) /\
    status instance = CANCELLED /\
    process_payment_request sim_quiet_success 1 w1
    = (Ok (Skipped CANCELLED), w2) /\
    db w2 !! 1 = Some instance.
Proof.
  apply (cancel_before_worker_wins sim_quiet_success 1 world1 request0);
    reflexivity.
Defined.

Lemma dispatch_destroy_deletes key w r :
  db w !! key = Some r ->
  pk r = key ->
  status r ∉ [COMPLETED; PROCESSING] ->
  exists w',
    dispatch (view_destroy key) w
    = (Ok (mkResponse HTTP_204_NO_CONTENT BodyEmpty), w') /\
    db w' = delete key (db w).
Proof.
  intros Hrow Hpk Hst. eexists. split.
  - apply dispatch_ok. unfold view_destroy.
    rewrite (view_bind_found key _ (with_depth (S (depth w)) w) r Hrow).
    rewrite bool_decide_eq_false_2 by done.
    unfold respond, delete_instance. unfold_monad. reflexivity.
  - match goal with |- db (commit ?w0) = _ =>
      destruct (commit_frame w0) as (-> & _ & _) end.
    cbn. by rewrite Hpk.
Qed.

(** X17.  [destroy] refuses a request in [PROCESSING], but [cancel] accepts
    it and [destroy] accepts the cancelled request.  When a user does both
    while a run sleeps between its two phases, the run's second fetch finds
    no row and the run ends with an uncaught [DoesNotExist]; the table is
    left without the row, the other rows as they were. *)
Theorem cancel_and_delete_during_sleep_ends_run_with_exception
    (t : Z) (success : bool) (request_id : Z) (w : World)
    (r : PaymentRequest) :
  db w !! request_id = Some r ->
  status r = PENDING ->
  pk r = request_id ->
  exists w',
    process_payment_request (sim_cancel_and_delete request_id t success)
      request_id w
    = (Raise DoesNotExist, w') /\
    db w' = delete request_id (db w).
Proof.
  intros Hrow Hst Hpk.
  unfold process_payment_request. unfold_monad.
  destruct (lock_phase_pending request_id
              (with_log (log w ++ [(INFO, MsgStarting request_id)]) w) r)
    as (w1 & Hlock & Hdb1 & _); [done..|].
  unfold logger at 1. rewrite Hlock.
  unfold time_sleep, sim_cancel_and_delete. cbn [meanwhile is_success].
  set (p := set_updated_at _ (set_status PROCESSING r)) in Hdb1.
  destruct (dispatch_action_performs ActCancel request_id w1 p)
    as (w2 & Hcancel & Hdb2);
    [by rewrite Hdb1, lookup_insert_eq|done|cbn; mem|].
  cbn [action_op view_action] in Hcancel. rewrite Hcancel. cbn [snd].
  set (c := fired OpCancel _ _ p) in *.
  destruct (dispatch_destroy_deletes request_id w2 c)
    as (w3 & Hdestroy & Hdb3);
    [by rewrite Hdb2, lookup_insert_eq|done|cbn; mem|].
  rewrite Hdestroy. cbn [snd].
  assert (Hgone : db w3 = delete request_id (db w)).
  { rewrite Hdb3, Hdb2, Hdb1. cbn. by rewrite !delete_insert_eq. }
  rewrite terminal_phase_missing by (by rewrite Hgone, lookup_delete_eq).
  eexists. split; [reflexivity|exact Hgone].
Qed.

(** The pending request 1, cancelled and deleted while its run sleeps. *)
Lemma cancel_and_delete_during_sleep_ends_run_with_exception_witness :
  exists w',
    process_payment_request (sim_cancel_and_delete 1 3000 true) 1 world1
    = (Raise DoesNotExist, w') /\
    db w' = delete 1 (db world1).
Proof.
  apply (cancel_and_delete_during_sleep_ends_run_with_exception
           3000 true 1 world1 request0); reflexivity.
Defined.
